(** * KanBan: the task ordering engine

    A shallow embedding of the Mongoose model [models/Task.js] (schema,
    validators, unique compound index, the statics [getNextOrder],
    [reorderTasks], [moveTaskToColumn]) and of the Express handlers of
    [routes/tasks.js], followed by the properties of the ordering engine.

    Conventions of the embedding.
    - The collection is a finite map from [_id] to document: [_id] is the
      primary key, so two documents never share it.  A key is the spelling
      the store gives an [_id], 24 hexadecimal digits with the letters in
      lower case.  A request identifier is looked up as it is sent, which is
      what the cast to ObjectId finds for an identifier sent in that
      spelling; the statements about identifiers that name no stored task
      are made for that spelling ([isStoredSpelling]).
    - [order] is a JavaScript number; the embedding covers the integers.
      The sum [lastTask.order + 1] of [getNextOrder] is taken in the
      integers, which is the JavaScript sum as long as the orders are safe
      integers; the statements about the value of that sum bound the stored
      orders ([safeOrders]).
    - A title is a string of code units below 256.
    - [createdAt] and [updatedAt] are wall-clock stamps and are left out.
    - The schema declares the unique index [{columnId: 1, order: 1}], and
      [server.js] awaits [Task.createIndexes()] before it listens.  A
      write is accepted when the collection it leaves satisfies that index
      and is rejected with the duplicate-key error 11000 otherwise.  A
      multi-document update is checked once, on its result (an atomic
      multi-record update); the server checks document by document, so a
      rejection here is a rejection on the server for every scan order,
      while an update accepted here is accepted there for a suitable scan
      order.  A rejected update leaves the collection as it was, as one
      rejected at the first document it visits does.  The statements about
      an accepted shift by +1 are made where every document it moves lands
      on an order nobody holds ([spacedFrom]): there each single write is
      accepted, in whatever sequence the server visits the documents. *)

From stdpp Require Import gmap strings list fin_maps sorting.
From Stdlib Require Import ZArith Ascii String.

Local Open Scope Z_scope.
Local Open Scope string_scope.

(** ** Data model *)

Inductive Column : Type := todo | in_progress | completed.

#[global] Instance Column_eq_dec : EqDecision Column.
Proof. solve_decision. Defined.

(** [validColumns.includes(columnId)], with the enum member it denotes. *)
Definition parseColumn (c : string) : option Column :=
  if String.eqb c "todo" then Some todo
  else if String.eqb c "in-progress" then Some in_progress
  else if String.eqb c "completed" then Some completed
  else None.

Definition columnName (c : Column) : string :=
  match c with
  | todo => "todo"
  | in_progress => "in-progress"
  | completed => "completed"
  end.

Record Task : Type := mkTask {
  title : string;
  description : string;
  columnId : Column;
  order : Z
}.

(** The key of a document in the index [{columnId: 1, order: 1}]. *)
Definition indexKey (t : Task) : Column * Z := (columnId t, order t).

Definition setOrder (n : Z) (t : Task) : Task :=
  mkTask (title t) (description t) (columnId t) n.

Definition setColumnOrder (c : Column) (n : Z) (t : Task) : Task :=
  mkTask (title t) (description t) c n.

(** [{ $inc: { order: d } }] *)
Definition incOrder (d : Z) (t : Task) : Task := setOrder (order t + d) t.

(** ** Identifiers and strings *)

Definition isHexDigit (c : ascii) : bool :=
  let n := nat_of_ascii c in
  ((48 <=? n) && (n <=? 57) || (65 <=? n) && (n <=? 70)
   || (97 <=? n) && (n <=? 102))%nat.

(** [/^[0-9a-fA-F]{24}$/] *)
Definition isObjectId (id : string) : bool :=
  (String.length id =? 24)%nat && forallb isHexDigit (list_ascii_of_string id).

Definition isLowerHexDigit (c : ascii) : bool :=
  let n := nat_of_ascii c in
  ((48 <=? n) && (n <=? 57) || (97 <=? n) && (n <=? 102))%nat.

(** The spelling [ObjectId.prototype.toString()] gives an [_id]: 24
    hexadecimal digits, the letters in lower case. *)
Definition isStoredSpelling (id : string) : bool :=
  (String.length id =? 24)%nat
  && forallb isLowerHexDigit (list_ascii_of_string id).

Definition isSpace (c : ascii) : bool :=
  let n := nat_of_ascii c in
  ((9 <=? n) && (n <=? 13) || (n =? 32) || (n =? 160))%nat.

Fixpoint dropSpaces (l : list ascii) : list ascii :=
  match l with
  | [] => []
  | c :: r => if isSpace c then dropSpaces r else l
  end.

(** The [trim: true] setter of the schema. *)
Definition trim (s : string) : string :=
  string_of_list_ascii
    (rev (dropSpaces (rev (dropSpaces (list_ascii_of_string s))))).

(** ** Errors raised by the driver, by Mongoose and by the model *)

Inductive JsError : Type :=
| ValidationError (errors : list (string * string))
| MongoServerError (code : Z)
| CastError (value : string)
| Error (message : string).

Fixpoint joinWith (sep : string) (l : list string) : string :=
  match l with
  | [] => ""
  | [x] => x
  | x :: r => x ++ sep ++ joinWith sep r
  end.

(** [error.message] *)
Definition errorMessage (e : JsError) : string :=
  match e with
  | ValidationError errs =>
      "Task validation failed: "
        ++ joinWith ", " (map (fun '(p, m) => p ++ ": " ++ m) errs)
  | MongoServerError c => "E11000 duplicate key error"
  | CastError v => "Cast to ObjectId failed for value " ++ v
  | Error m => m
  end.

(** [error.name] *)
Definition errorName (e : JsError) : string :=
  match e with
  | ValidationError _ => "ValidationError"
  | MongoServerError _ => "MongoServerError"
  | CastError _ => "CastError"
  | Error _ => "Error"
  end.

(** [error.name === 'ValidationError'] *)
Definition isValidationError (e : JsError) : bool :=
  match e with ValidationError _ => true | _ => false end.

(** [error.code === 11000] *)
Definition isDuplicateKey (e : JsError) : bool :=
  match e with MongoServerError c => Z.eqb c 11000 | _ => false end.

(** ** Schema validation, run by [save] *)

Definition validateTitle (t : string) : list (string * string) :=
  if String.eqb t "" then [("title", "Task title is required")]
  else if (String.length t <? 5)%nat
       then [("title", "Title must be at least 5 characters long")]
       else [].

Definition validateOrder (n : Z) : list (string * string) :=
  if Z.ltb n 1 then [("order", "Order must be at least 1")] else [].

Definition validate (t : Task) : list (string * string) :=
  (validateTitle (title t) ++ validateOrder (order t))%list.

(** ** The collection and its unique index *)

Definition indexKeys (s : gmap string Task) : list (Column * Z) :=
  (fun p => indexKey p.2) <$> map_to_list s.

(** The unique index [{columnId: 1, order: 1}] holds of the collection. *)
Definition uniqueIndex (s : gmap string Task) : Prop := NoDup (indexKeys s).

#[global] Instance uniqueIndex_dec s : Decision (uniqueIndex s).
Proof. unfold uniqueIndex. apply _. Defined.

(** The documents of a column, as [find({columnId})] returns them. *)
Definition findColumn (c : Column) (s : gmap string Task) : list (string * Task) :=
  map_to_list (filter (fun p => columnId p.2 = c) s).

(** ** State and exceptions *)

Inductive Result (A : Type) : Type :=
| Ok (a : A)
| Throw (e : JsError).
Arguments Ok {A} a.
Arguments Throw {A} e.

Definition M (A : Type) : Type := gmap string Task -> gmap string Task * Result A.

#[global] Instance M_ret : MRet M := fun A a s => (s, Ok a).

#[global] Instance M_bind : MBind M := fun A B f m s =>
  match m s with
  | (s', Ok a) => f a s'
  | (s', Throw e) => (s', Throw e)
  end.

Definition throw {A} (e : JsError) : M A := fun s => (s, Throw e).

(** [try { m } catch (error) { h error }] *)
Definition tryCatch {A} (m : M A) (h : JsError -> M A) : M A := fun s =>
  match m s with
  | (s', Ok a) => (s', Ok a)
  | (s', Throw e) => h e s'
  end.

(** A write: accepted when the index holds of the result. *)
Definition commit (s' : gmap string Task) : M unit := fun s =>
  if decide (uniqueIndex s') then (s', Ok ()) else (s, Throw (MongoServerError 11000)).

(** ** Filters and updates *)

Definition inColumn (c : Column) (t : Task) : bool := bool_decide (columnId t = c).

(** [{ columnId: c, order: { $gt: o } }] *)
Definition gtOrder (c : Column) (o : Z) (t : Task) : bool :=
  inColumn c t && Z.ltb o (order t).

(** [{ columnId: c, order: { $gte: n } }] *)
Definition gteOrder (c : Column) (n : Z) (t : Task) : bool :=
  inColumn c t && Z.leb n (order t).

(** [{ columnId: c, order: { $gte: n, $lt: o } }] *)
Definition gteLtOrder (c : Column) (n o : Z) (t : Task) : bool :=
  inColumn c t && Z.leb n (order t) && Z.ltb (order t) o.

(** [{ columnId: c, order: { $gt: o, $lte: n } }] *)
Definition gtLteOrder (c : Column) (o n : Z) (t : Task) : bool :=
  inColumn c t && Z.ltb o (order t) && Z.leb (order t) n.

(** What [{ $inc: { order: d } }] under a filter does to one document. *)
Definition shiftWhere (P : Task -> bool) (d : Z) (t : Task) : Task :=
  if P t then incOrder d t else t.

(** ** Query primitives *)

(** [Task.findById(id)]: the filter is cast to the schema first; the cast
    is taken to accept the 24 hexadecimal digits the handlers check for.
    The document is looked up under the identifier as it is sent, which is
    the document the cast finds when the identifier is sent in the stored
    spelling. *)
Definition findById (id : string) : M (option Task) := fun s =>
  if isObjectId id then (s, Ok (s !! id)) else (s, Throw (CastError id)).

(** [Task.findOne({ columnId, order })] *)
Definition findOneAt (c : Column) (k : Z) : M (option Task) := fun s =>
  (s, Ok (snd <$> head (map_to_list
            (filter (fun p => columnId p.2 = c ∧ order p.2 = k) s)))).

(** [Task.updateMany(filter, { $inc: { order: d } })], as one write checked
    against the index on its result. *)
Definition updateMany (P : Task -> bool) (d : Z) : M unit := fun s =>
  commit (shiftWhere P d <$> s) s.

(** The same update written one document at a time, in the sequence [ids],
    each write checked against the index: a rejected write stops the update
    and the earlier writes stay. *)
Fixpoint updateEach (P : Task -> bool) (d : Z) (ids : list string) : M unit :=
  match ids with
  | [] => mret ()
  | id :: rest => fun s =>
      match s !! id with
      | Some t =>
          if P t then (_ ← commit (<[id := incOrder d t]> s); updateEach P d rest) s
          else updateEach P d rest s
      | None => updateEach P d rest s
      end
  end.

(** [Task.updateOne({ _id, columnId }, { order })] *)
Definition updateOne (id : string) (c : Column) (n : Z) : M unit := fun s =>
  if isObjectId id then
    match s !! id with
    | Some t =>
        if decide (columnId t = c) then commit (<[id := setOrder n t]> s) s
        else (s, Ok ())
    | None => (s, Ok ())
    end
  else (s, Throw (CastError id)).

(** [task.save()] of a document: validation, then the write. The [isNew]
    document is inserted, and its [_id] must be free. *)
Definition save (isNew : bool) (id : string) (t : Task) : M Task := fun s =>
  match validate t with
  | [] =>
      if isNew && bool_decide (is_Some (s !! id))
      then (s, Throw (MongoServerError 11000))
      else (_ ← commit (<[id := t]> s); mret t) s
  | errs => (s, Throw (ValidationError errs))
  end.

(** [Task.findByIdAndDelete(id)] *)
Definition findByIdAndDelete (id : string) : M unit := fun s =>
  if isObjectId id then (delete id s, Ok ()) else (s, Throw (CastError id)).

(** [Task.findByIdAndUpdate(id, updateData, { new: true, runValidators: true })] *)
Definition findByIdAndUpdate (id : string) (newTitle newDescription : option string)
    : M (option Task) := fun s =>
  match s !! id with
  | None => (s, Ok None)
  | Some t =>
      let t' := mkTask (default (title t) (trim <$> newTitle))
                       (default (description t) (trim <$> newDescription))
                       (columnId t) (order t) in
      match from_option validateTitle [] (trim <$> newTitle) with
      | [] => (<[id := t']> s, Ok (Some t'))
      | errs => (s, Throw (ValidationError errs))
      end
  end.

(** ** The statics of the model *)

(** The greatest [order] among documents: what
    [.sort({ order: -1 }).select('order')] reads off the first of them. *)
Definition maxOf (l : list (string * Task)) : option Z :=
  foldr (fun p acc =>
           Some (match acc with
                 | Some m => Z.max (order p.2) m
                 | None => order p.2
                 end))
        None l.

Definition lastOrder (c : Column) (s : gmap string Task) : option Z :=
  maxOf (findColumn c s).

(** The order [getNextOrder] computes; [m + 1] is the JavaScript sum when
    [m] is a safe integer. *)
Definition nextOrder (c : Column) (s : gmap string Task) : Z :=
  match lastOrder c s with Some m => m + 1 | None => 1 end.

Definition getNextOrder (c : Column) : M Z := fun s => (s, Ok (nextOrder c s)).

(** The [for ... of] loop of [reorderTasks]. *)
Fixpoint reorderLoop (c : Column) (taskUpdates : list (string * Z)) : M unit :=
  match taskUpdates with
  | [] => mret ()
  | update :: rest => _ ← updateOne update.1 c update.2; reorderLoop c rest
  end.

Definition reorderTasks (c : Column) (taskUpdates : list (string * Z)) : M unit :=
  tryCatch (reorderLoop c taskUpdates)
    (fun error => throw (Error ("Failed to reorder tasks: " ++ errorMessage error))).

(** The shifts of [moveTaskToColumn], before the task itself is written. *)
Definition moveShifts (oldColumnId : Column) (oldOrder : Z)
    (newColumnId : Column) (newOrder : Z) : M unit :=
  if decide (oldColumnId ≠ newColumnId) then
    _ ← updateMany (gtOrder oldColumnId oldOrder) (-1);
    updateMany (gteOrder newColumnId newOrder) 1
  else if Z.ltb newOrder oldOrder then
    updateMany (gteLtOrder oldColumnId newOrder oldOrder) 1
  else if Z.ltb oldOrder newOrder then
    updateMany (gtLteOrder oldColumnId oldOrder newOrder) (-1)
  else mret ().

Definition moveTaskToColumn (taskId : string) (newColumnId : Column) (newOrder : Z)
    : M Task :=
  tryCatch
    (task ← findById taskId;
     match task with
     | None => throw (Error "Task not found")
     | Some task =>
         _ ← moveShifts (columnId task) (order task) newColumnId newOrder;
         save false taskId (setColumnOrder newColumnId newOrder task)
     end)
    (fun error => throw (Error ("Failed to move task: " ++ errorMessage error))).

(** ** The request handlers *)

Inductive Body : Type :=
| ErrorBody (message : string)
| MessageBody (message : string)
| TaskBody (id : string) (task : option Task)
| TasksBody (tasks : list (string * Task)).

Record Response : Type := mkResponse { status : Z; body : Body }.

Definition Handler : Type := gmap string Task -> gmap string Task * Response.

Definition invalidColumn : Response :=
  mkResponse 400
    (ErrorBody "Invalid columnId. Must be one of: todo, in-progress, completed").

Definition notFound : Response := mkResponse 404 (ErrorBody "Task not found").

(** The messages of a validation error, joined as the handlers do. *)
Definition validationResponse (e : JsError) : Response :=
  match e with
  | ValidationError errs => mkResponse 400 (ErrorBody (joinWith ", " (map snd errs)))
  | _ => mkResponse 400 (ErrorBody "")
  end.

(** *** POST /api/tasks *)

Record CreateBody : Type := mkCreateBody {
  cb_title : option string;
  cb_description : option string;
  cb_columnId : option string;
  cb_order : option Z
}.

Definition truthyString (o : option string) : bool :=
  match o with Some x => negb (String.eqb x "") | None => false end.

(** The order of the body when [!taskOrder] is false. *)
Definition truthyOrder (o : option Z) : option Z :=
  match o with
  | Some k => if Z.eqb k 0 then None else Some k
  | None => None
  end.

(** Lines 70 to 84: the order of the new task, after the shift if any. *)
Definition chooseOrder (c : Column) (requested : option Z) : M Z :=
  match truthyOrder requested with
  | None => getNextOrder c
  | Some taskOrder =>
      existingTask ← findOneAt c taskOrder;
      _ ← (match existingTask with
           | Some _ => updateMany (gteOrder c taskOrder) 1
           | None => mret ()
           end);
      mret taskOrder
  end.

Definition createCatch (error : JsError) : Response :=
  if isValidationError error then validationResponse error
  else if isDuplicateKey error
       then mkResponse 400
              (ErrorBody "A task with this order already exists in the column")
       else mkResponse 500 (ErrorBody "Failed to create task").

(** The document [new Task({ title, description, columnId, order })]. *)
Definition newTask (ti : string) (de : option string) (c : Column) (k : Z) : Task :=
  mkTask (trim ti) (trim (default "" de)) c k.

(** [newId] is the [_id] that [new Task(...)] draws for the document. *)
Definition createTask (newId : string) (b : CreateBody) : Handler := fun s =>
  if negb (truthyString (cb_title b)) || negb (truthyString (cb_columnId b))
  then (s, mkResponse 400 (ErrorBody "Title and columnId are required"))
  else
    match parseColumn (default "" (cb_columnId b)) with
    | None => (s, invalidColumn)
    | Some c =>
        match (taskOrder ← chooseOrder c (cb_order b);
               save true newId
                 (newTask (default "" (cb_title b)) (cb_description b) c taskOrder)) s
        with
        | (s', Ok savedTask) => (s', mkResponse 201 (TaskBody newId (Some savedTask)))
        | (s', Throw error) => (s', createCatch error)
        end
    end.

(** *** PUT /api/tasks/:id *)

Record UpdateBody : Type := mkUpdateBody {
  ub_columnId : option string;
  ub_order : option Z;
  ub_title : option string;
  ub_description : option string
}.

Definition updateFailed : Response :=
  mkResponse 500 (ErrorBody "Failed to update task").

Definition updateCatch (error : JsError) : Response :=
  if String.eqb (errorMessage error) "Task not found" then notFound
  else if isValidationError error then validationResponse error
  else updateFailed.

Definition updateTask (id : string) (b : UpdateBody) : Handler := fun s =>
  if negb (isObjectId id)
  then (s, mkResponse 400 (ErrorBody "Invalid task ID format"))
  else
    match s !! id with
    | None => (s, notFound)
    | Some _ =>
        match ub_columnId b, ub_order b with
        | Some columnId, Some order =>
            match parseColumn columnId with
            | None => (s, invalidColumn)
            | Some c =>
                match moveTaskToColumn id c order s with
                | (s', Ok updatedTask) =>
                    (s', mkResponse 200 (TaskBody id (Some updatedTask)))
                | (s', Throw error) => (s', updateCatch error)
                end
            end
        | _, _ =>
            match findByIdAndUpdate id (ub_title b) (ub_description b) s with
            | (s', Ok updatedTask) => (s', mkResponse 200 (TaskBody id updatedTask))
            | (s', Throw error) => (s', updateCatch error)
            end
        end
    end.

(** *** DELETE /api/tasks/:id *)

Definition deleteTask (id : string) : Handler := fun s =>
  if negb (isObjectId id)
  then (s, mkResponse 400 (ErrorBody "Invalid task ID format"))
  else
    match s !! id with
    | None => (s, notFound)
    | Some task =>
        match (_ ← findByIdAndDelete id;
               updateMany (gtOrder (columnId task) (order task)) (-1)) s with
        | (s', Ok _) => (s', mkResponse 200 (MessageBody "Task deleted successfully"))
        | (s', Throw _) => (s', mkResponse 500 (ErrorBody "Failed to delete task"))
        end
    end.

(** *** POST /api/tasks/reorder *)

Definition orderLe (p q : string * Task) : Prop := order p.2 <= order q.2.

#[global] Instance orderLe_dec p q : Decision (orderLe p q).
Proof. unfold orderLe. apply _. Defined.

(** [!task._id || !task.order] is false. *)
Definition wellFormedEntry (e : string * Z) : bool :=
  negb (String.eqb e.1 "") && negb (Z.eqb e.2 0).

(** [tasks] is [None] when the body carries no array. *)
Definition reorder (columnId : option string) (tasks : option (list (string * Z)))
    : Handler := fun s =>
  match tasks with
  | Some tasks =>
      if negb (truthyString columnId)
      then (s, mkResponse 400 (ErrorBody "columnId and tasks array are required"))
      else
        match parseColumn (default "" columnId) with
        | None => (s, invalidColumn)
        | Some c =>
            if negb (forallb wellFormedEntry tasks)
            then (s, mkResponse 400
                       (ErrorBody "Each task must have _id and order fields"))
            else
              match reorderTasks c tasks s with
              | (s', Ok _) =>
                  (s', mkResponse 200
                         (TasksBody (merge_sort orderLe (findColumn c s'))))
              | (s', Throw _) => (s', mkResponse 500 (ErrorBody "Failed to reorder tasks"))
              end
        end
  | None => (s, mkResponse 400 (ErrorBody "columnId and tasks array are required"))
  end.

(** ** Sequences of engine operations *)

Inductive Op : Type :=
| InsertTask (newId : string) (b : CreateBody)
| DeleteTask (id : string)
| MoveTask (taskId : string) (newColumnId : Column) (newOrder : Z)
| PutTask (id : string) (b : UpdateBody)
| BulkReorder (c : Column) (taskUpdates : list (string * Z))
| ReorderRequest (columnId : option string) (tasks : option (list (string * Z)))
| ComputeNextOrder (c : Column).

(** The collection after one operation, successful or not. *)
Definition runOp (o : Op) (s : gmap string Task) : gmap string Task :=
  match o with
  | InsertTask newId b => (createTask newId b s).1
  | DeleteTask id => (deleteTask id s).1
  | MoveTask taskId c n => (moveTaskToColumn taskId c n s).1
  | PutTask id b => (updateTask id b s).1
  | BulkReorder c l => (reorderTasks c l s).1
  | ReorderRequest c l => (reorder c l s).1
  | ComputeNextOrder c => (getNextOrder c s).1
  end.

Definition runOps (ops : list Op) (s : gmap string Task) : gmap string Task :=
  foldl (fun st o => runOp o st) s ops.

Local Open Scope list_scope.

(** * Properties of boards *)

(** No two documents share a column and an order. *)
Definition distinctOrders (s : gmap string Task) : Prop :=
  ∀ i j t u, s !! i = Some t → s !! j = Some u →
    columnId t = columnId u → order t = order u → i = j.

(** The state a computation leaves, whether it returns or throws, satisfies
    the index. *)
Definition preservesIndex {A} (m : M A) : Prop :=
  ∀ s, uniqueIndex s → uniqueIndex (m s).1.

Definition handlerPreserves (h : Handler) : Prop :=
  ∀ s, uniqueIndex s → uniqueIndex (h s).1.

(** [countDocuments({ columnId })] *)
Definition columnSize (c : Column) (s : gmap string Task) : nat :=
  List.length (findColumn c s).

Definition columnOrders (c : Column) (s : gmap string Task) : list Z :=
  (fun p => order p.2) <$> findColumn c s.

(** Some task of column [c] has order [k]. *)
Definition hasOrder (c : Column) (s : gmap string Task) (k : Z) : Prop :=
  ∃ id t, s !! id = Some t ∧ columnId t = c ∧ order t = k.

(** The orders of column [c] are exactly 1, ..., N for its N tasks. *)
Definition dense (c : Column) (s : gmap string Task) : Prop :=
  ∀ k, hasOrder c s k ↔ 1 <= k <= Z.of_nat (columnSize c s).

Definition denseb (c : Column) (s : gmap string Task) : bool :=
  let orders := columnOrders c s in
  forallb (fun k => Z.leb 1 k && Z.leb k (Z.of_nat (List.length orders))) orders
  && forallb (fun k => bool_decide (k ∈ orders)) (seqZ 1 (Z.of_nat (List.length orders))).

(** [m] is the greatest order of column [c]. *)
Definition isMaxOrder (c : Column) (s : gmap string Task) (m : Z) : Prop :=
  hasOrder c s m ∧ ∀ k, hasOrder c s k → k <= m.

Definition emptyColumn (c : Column) (s : gmap string Task) : Prop :=
  ∀ k, ¬ hasOrder c s k.

(** From [k] on, no two tasks of column [c] hold consecutive orders: a shift
    by +1 of the tasks from [k] on brings each of them to an order nobody
    holds, in whatever sequence they are written. *)
Definition spacedFrom (c : Column) (s : gmap string Task) (k : Z) : Prop :=
  ∀ j, k <= j → hasOrder c s j → ¬ hasOrder c s (j + 1).

(** [Number.MAX_SAFE_INTEGER] *)
Definition maxSafeInteger : Z := 2 ^ 53 - 1.

(** The orders of column [c] are safe integers: the JavaScript sum
    [order + 1] is the sum of the integers. *)
Definition safeOrders (c : Column) (s : gmap string Task) : Prop :=
  ∀ k, hasOrder c s k → - maxSafeInteger <= k <= maxSafeInteger.

(** No document of column [c] has identifier [id]: the filter
    [{ _id: id, columnId: c }] matches nothing. *)
Definition unmatched (c : Column) (id : string) (s : gmap string Task) : Prop :=
  s !! id = None ∨ ∃ t, s !! id = Some t ∧ columnId t ≠ c.

(** The board once [task], stored under [id], is deleted and the tasks below
    it in its column have moved up. *)
Definition compacted (s : gmap string Task) (id : string) (task : Task)
    : gmap string Task :=
  shiftWhere (gtOrder (columnId task) (order task)) (-1) <$> delete id s.

(** The board once the tasks of column [c] from order [k] on have made room. *)
Definition shiftedUp (s : gmap string Task) (c : Column) (k : Z) : gmap string Task :=
  shiftWhere (gteOrder c k) 1 <$> s.

(** A request body with an explicit order. *)
Definition explicitBody (ti : string) (de : option string) (c : Column) (k : Z)
    : CreateBody :=
  mkCreateBody (Some ti) de (Some (columnName c)) (Some k).

(** A request body that moves a task. *)
Definition moveBody (c : string) (n : Z) : UpdateBody :=
  mkUpdateBody (Some c) (Some n) None None.

(** The errors the statics throw when the index rejects a write, and when
    the task to move is missing. *)
Definition moveRejected : JsError :=
  Error "Failed to move task: E11000 duplicate key error".

Definition reorderRejected : JsError :=
  Error "Failed to reorder tasks: E11000 duplicate key error".

Definition moveNotFound : JsError := Error "Failed to move task: Task not found".

(** Insertion at [k], as the specification words it: as soon as some task of
    the column has an order at or after [k], every task of the column from
    [k] on moves up by one. *)
Definition insertShiftsFrom (s : gmap string Task) (newId ti : string)
    (c : Column) (k : Z) : Prop :=
  (∃ id t, s !! id = Some t ∧ columnId t = c ∧ k <= order t) →
  ∀ id t, s !! id = Some t → columnId t = c → k <= order t →
    (createTask newId (explicitBody ti None c k) s).1 !! id
      = Some (setOrder (order t + 1) t).

(** A bulk-reorder entry, as the specification words it: an entry that names
    no task of the column is skipped and the batch succeeds. *)
Definition entrySkipped (c : Column) (s : gmap string Task) (id : string) (n : Z)
    : Prop :=
  unmatched c id s → reorderTasks c [(id, n)] s = (s, Ok ()).

(** An order of 0, as the specification words it: whatever the board, the
    task is written at the order [getNextOrder] computes and nothing is
    rejected. *)
Definition zeroOrderAppends (s : gmap string Task) (newId ti : string)
    (c : Column) : Prop :=
  createTask newId (mkCreateBody (Some ti) None (Some (columnName c)) (Some 0)) s
  = (<[newId := newTask ti None c (nextOrder c s)]> s,
     mkResponse 201 (TaskBody newId (Some (newTask ti None c (nextOrder c s))))).

(** ** Boards used in the examples *)

Definition idA : string := "64a7b8c9d1e2f3a4b5c6d7e1".
Definition idB : string := "64a7b8c9d1e2f3a4b5c6d7e2".
Definition idC : string := "64a7b8c9d1e2f3a4b5c6d7e3".
Definition idD : string := "64a7b8c9d1e2f3a4b5c6d7e4".
Definition idNew : string := "64a7b8c9d1e2f3a4b5c6d7e8".

Definition card (name : string) (c : Column) (n : Z) : Task := mkTask name "" c n.

(** Column todo holds A(1), B(2), C(3). *)
Definition boardABC : gmap string Task :=
  <[idA := card "Task A" todo 1]>
    (<[idB := card "Task B" todo 2]> (<[idC := card "Task C" todo 3]> ∅)).

(** Column todo holds A(1). *)
Definition boardA : gmap string Task := <[idA := card "Task A" todo 1]> ∅.

(** Column todo holds A at order -5: the board a bulk reorder of [boardA]
    with the entry (A, -5) leaves. *)
Definition boardBelowOne : gmap string Task := <[idA := card "Task A" todo (-5)]> ∅.

(** Column todo holds A(1), B(2). *)
Definition boardAB : gmap string Task :=
  <[idA := card "Task A" todo 1]> (<[idB := card "Task B" todo 2]> ∅).

(** Column todo holds A(1) and B(3): nobody sits at 2. *)
Definition boardGap : gmap string Task :=
  <[idA := card "Task A" todo 1]> (<[idB := card "Task B" todo 3]> ∅).

(** Column todo holds A(1), B(2); column in-progress holds D(1). *)
Definition boardTwoColumns : gmap string Task :=
  <[idA := card "Task A" todo 1]>
    (<[idB := card "Task B" todo 2]> (<[idD := card "Task D" in_progress 1]> ∅)).

(** The board after B went from todo to in-progress at 1: D made room. *)
Definition boardAfterMove : gmap string Task :=
  <[idA := card "Task A" todo 1]>
    (<[idB := card "Task B" in_progress 1]>
       (<[idD := card "Task D" in_progress 2]> ∅)).

(** The board [seed.js] inserts, under identifiers of our choosing. *)
Definition sampleTasks : list (string * Task) :=
  [("64a7b8c9d1e2f3a4b5c6d701",
    mkTask "Design user interface mockups"
      "Create wireframes and mockups for the new dashboard" todo 1);
   ("64a7b8c9d1e2f3a4b5c6d702",
    mkTask "Write project documentation"
      "Document the API endpoints and database schema" todo 2);
   ("64a7b8c9d1e2f3a4b5c6d703",
    mkTask "Setup CI/CD pipeline"
      "Configure automated testing and deployment" todo 3);
   ("64a7b8c9d1e2f3a4b5c6d704",
    mkTask "Research new technologies"
      "Investigate modern frontend frameworks and libraries" todo 4);
   ("64a7b8c9d1e2f3a4b5c6d705",
    mkTask "Implement user authentication"
      "Add login, logout, and registration functionality" in_progress 1);
   ("64a7b8c9d1e2f3a4b5c6d706",
    mkTask "Create database migrations"
      "Setup initial database structure and seed data" in_progress 2);
   ("64a7b8c9d1e2f3a4b5c6d707",
    mkTask "Build responsive layout"
      "Ensure the application works on mobile devices" in_progress 3);
   ("64a7b8c9d1e2f3a4b5c6d708",
    mkTask "Setup development environment"
      "Install Node.js, MongoDB, and configure project" completed 1);
   ("64a7b8c9d1e2f3a4b5c6d709",
    mkTask "Create project repository"
      "Initialize Git repository and push to GitHub" completed 2);
   ("64a7b8c9d1e2f3a4b5c6d70a",
    mkTask "Define project requirements"
      "Gather and document all functional requirements" completed 3);
   ("64a7b8c9d1e2f3a4b5c6d70b",
    mkTask "Choose technology stack"
      "Select Node.js, Express, MongoDB, and React" completed 4)].

Definition seeded : gmap string Task := list_to_map sampleTasks.

(** * Proofs *)

Ltac boolean :=
  repeat match goal with
  | H : _ && _ = true |- _ => apply andb_prop in H as [? ?]
  | H : _ && _ = false |- _ => apply andb_false_iff in H as [?|?]
  | H : inColumn _ _ = true |- _ => apply bool_decide_eq_true in H
  | H : inColumn _ _ = false |- _ => apply bool_decide_eq_false in H
  | H : Z.ltb _ _ = true |- _ => apply Z.ltb_lt in H
  | H : Z.ltb _ _ = false |- _ => apply Z.ltb_ge in H
  | H : Z.leb _ _ = true |- _ => apply Z.leb_le in H
  | H : Z.leb _ _ = false |- _ => apply Z.leb_gt in H
  end.

(** ** Identifiers *)

Lemma isLowerHexDigit_isHexDigit a : isLowerHexDigit a = true → isHexDigit a = true.
Proof.
  unfold isLowerHexDigit, isHexDigit. intros H.
  apply orb_true_iff in H as [H|H]; rewrite H; [done|apply orb_true_r].
Qed.

(** An identifier in the stored spelling passes the handlers' format test. *)
Lemma isStoredSpelling_isObjectId id : isStoredSpelling id = true → isObjectId id = true.
Proof.
  unfold isStoredSpelling, isObjectId. intros H.
  apply andb_prop in H as [Hlen Hall]. rewrite Hlen. simpl.
  apply forallb_forall. intros a Ha. apply isLowerHexDigit_isHexDigit.
  by apply (proj1 (forallb_forall _ _) Hall).
Qed.

(** ** The unique index, pointwise *)

Section Index.
Implicit Types s : gmap string Task.

Lemma uniqueIndex_distinct s : uniqueIndex s ↔ distinctOrders s.
Proof.
  unfold uniqueIndex, indexKeys, distinctOrders. split.
  - intros Hnd i j t u Hi Hj Hc Ho.
    apply elem_of_map_to_list in Hi, Hj.
    apply list_elem_of_lookup in Hi as [a Ha], Hj as [b Hb].
    assert (a = b) as ->.
    { eapply NoDup_alt; [exact Hnd| |]; rewrite list_lookup_fmap.
      - rewrite Ha. reflexivity.
      - rewrite Hb. simpl. unfold indexKey. simpl. by rewrite Hc, Ho. }
    congruence.
  - intros Hd. apply NoDup_fmap_2_strong; [|apply NoDup_map_to_list].
    intros [i t] [j u] Hi Hj Hk. apply elem_of_map_to_list in Hi, Hj.
    unfold indexKey in Hk. simpl in Hk. injection Hk as Hc Ho.
    assert (i = j) as -> by eauto. congruence.
Qed.

Lemma distinct_delete s i : distinctOrders s → distinctOrders (delete i s).
Proof.
  intros Hd a b t u Ha Hb. apply lookup_delete_Some in Ha as [_ Ha].
  apply lookup_delete_Some in Hb as [_ Hb]. eauto.
Qed.

(** Replacing a document by one with the same key keeps the index. *)
Lemma distinct_insert_same_key s i t t' :
  s !! i = Some t → indexKey t' = indexKey t →
  distinctOrders s → distinctOrders (<[i := t']> s).
Proof.
  intros Hi Hk Hd a b x y Ha Hb Hc Ho.
  unfold indexKey in Hk. injection Hk as Hkc Hko.
  rewrite lookup_insert in Ha, Hb.
  destruct (decide (i = a)) as [Hia|Hia], (decide (i = b)) as [Hib|Hib];
    simplify_eq; try done.
  - eapply Hd; eauto; congruence.
  - eapply Hd; eauto; congruence.
  - eauto.
Qed.

(** Writing a document at a key nobody else holds keeps the index. *)
Lemma distinct_insert_free s i t :
  (∀ j u, j ≠ i → s !! j = Some u → indexKey u ≠ indexKey t) →
  distinctOrders s → distinctOrders (<[i := t]> s).
Proof.
  intros Hfree Hd a b x y Ha Hb Hc Ho.
  rewrite lookup_insert in Ha, Hb.
  destruct (decide (i = a)) as [Hia|Hia], (decide (i = b)) as [Hib|Hib];
    simplify_eq; try done.
  - exfalso. eapply (Hfree b y); eauto. unfold indexKey. congruence.
  - exfalso. eapply (Hfree a x); eauto. unfold indexKey. congruence.
  - eauto.
Qed.

(** An update that is injective on the keys in use keeps the index. *)
Lemma distinct_fmap s (f : Task → Task) :
  (∀ i j t u, s !! i = Some t → s !! j = Some u →
     indexKey (f t) = indexKey (f u) → indexKey t = indexKey u) →
  distinctOrders s → distinctOrders (f <$> s).
Proof.
  intros Hinj Hd a b x y Ha Hb Hc Ho.
  rewrite lookup_fmap in Ha, Hb.
  destruct (s !! a) as [t|] eqn:Ea; [|done].
  destruct (s !! b) as [u|] eqn:Eb; [|done].
  simpl in *. simplify_eq.
  assert (indexKey t = indexKey u) as Hk.
  { eapply Hinj; eauto. unfold indexKey. congruence. }
  unfold indexKey in Hk. injection Hk as ? ?. eauto.
Qed.

Lemma commit_accepted s s' : uniqueIndex s' → commit s' s = (s', Ok ()).
Proof. intros H. unfold commit. by rewrite decide_True. Qed.

Lemma commit_rejected s s' :
  ¬ uniqueIndex s' → commit s' s = (s, Throw (MongoServerError 11000)).
Proof. intros H. unfold commit. by rewrite decide_False. Qed.
End Index.


(** ** Every operation keeps the index *)

Section Preservation.
Context {A B : Type}.

Lemma preserves_ret (a : A) : preservesIndex (mret a).
Proof. intros s H. exact H. Qed.

Lemma preserves_throw (e : JsError) : preservesIndex (throw (A:=A) e).
Proof. intros s H. exact H. Qed.

Lemma preserves_bind (m : M A) (f : A → M B) :
  preservesIndex m → (∀ a, preservesIndex (f a)) → preservesIndex (m ≫= f).
Proof.
  intros Hm Hf s H. unfold mbind, M_bind. specialize (Hm s H).
  destruct (m s) as [s' [a|e]]; simpl in *; [by apply Hf | done].
Qed.

Lemma preserves_tryCatch (m : M A) (h : JsError → M A) :
  preservesIndex m → (∀ e, preservesIndex (h e)) → preservesIndex (tryCatch m h).
Proof.
  intros Hm Hh s H. unfold tryCatch. specialize (Hm s H).
  destruct (m s) as [s' [a|e]]; simpl in *; [done | by apply Hh].
Qed.
End Preservation.

Lemma preserves_commit s' : preservesIndex (commit s').
Proof. intros s H. unfold commit. by case_decide. Qed.

Lemma preserves_findById id : preservesIndex (findById id).
Proof. intros s H. unfold findById. by destruct (isObjectId id). Qed.

Lemma preserves_findOneAt c k : preservesIndex (findOneAt c k).
Proof. intros s H. exact H. Qed.

Lemma preserves_getNextOrder c : preservesIndex (getNextOrder c).
Proof. intros s H. exact H. Qed.

Lemma preserves_updateMany P f : preservesIndex (updateMany P f).
Proof. intros s H. unfold updateMany. by apply preserves_commit. Qed.

Lemma preserves_updateOne id c n : preservesIndex (updateOne id c n).
Proof.
  intros s H. unfold updateOne.
  destruct (isObjectId id); [|done].
  destruct (s !! id) as [t|]; [|done].
  case_decide; [by apply preserves_commit | done].
Qed.

Lemma preserves_save isNew id t : preservesIndex (save isNew id t).
Proof.
  intros s H. unfold save.
  destruct (validate t); [|done].
  destruct (isNew && _); [done|].
  apply (preserves_bind (commit _) (fun _ => mret t)); [|intros _|exact H].
  - apply preserves_commit.
  - apply preserves_ret.
Qed.

Lemma preserves_findByIdAndDelete id : preservesIndex (findByIdAndDelete id).
Proof.
  intros s H. unfold findByIdAndDelete. destruct (isObjectId id); [|done].
  simpl. apply uniqueIndex_distinct, distinct_delete, uniqueIndex_distinct, H.
Qed.

Lemma preserves_findByIdAndUpdate id ti de :
  preservesIndex (findByIdAndUpdate id ti de).
Proof.
  intros s H. unfold findByIdAndUpdate.
  destruct (s !! id) as [t|] eqn:E; [|done].
  destruct (from_option _ _ _); [|done]. simpl.
  apply uniqueIndex_distinct.
  eapply distinct_insert_same_key; [exact E|reflexivity|].
  by apply uniqueIndex_distinct.
Qed.

Lemma preserves_reorderLoop c l : preservesIndex (reorderLoop c l).
Proof.
  induction l as [|u l IH]; simpl; [apply preserves_ret|].
  apply preserves_bind; [apply preserves_updateOne | intros _; exact IH].
Qed.

Lemma preserves_reorderTasks c l : preservesIndex (reorderTasks c l).
Proof.
  apply preserves_tryCatch; [apply preserves_reorderLoop|].
  intros e. apply preserves_throw.
Qed.

Lemma preserves_moveShifts c o c' n : preservesIndex (moveShifts c o c' n).
Proof.
  unfold moveShifts. case_decide.
  - apply preserves_bind; [|intros _]; apply preserves_updateMany.
  - destruct (Z.ltb n o); [apply preserves_updateMany|].
    destruct (Z.ltb o n); [apply preserves_updateMany|apply preserves_ret].
Qed.

Lemma preserves_moveTaskToColumn id c n : preservesIndex (moveTaskToColumn id c n).
Proof.
  apply preserves_tryCatch; [|intros e; apply preserves_throw].
  apply preserves_bind; [apply preserves_findById|].
  intros [t|]; [|apply preserves_throw].
  apply preserves_bind; [apply preserves_moveShifts|].
  intros _. apply preserves_save.
Qed.

Lemma preserves_chooseOrder c o : preservesIndex (chooseOrder c o).
Proof.
  unfold chooseOrder. destruct (truthyOrder o); [|apply preserves_getNextOrder].
  apply preserves_bind; [apply preserves_findOneAt|].
  intros ex. apply preserves_bind; [|intros _; apply preserves_ret].
  destruct ex; [apply preserves_updateMany|apply preserves_ret].
Qed.

Lemma createTask_preserves newId b : handlerPreserves (createTask newId b).
Proof.
  intros s H. unfold createTask.
  destruct (_ || _); [done|].
  destruct (parseColumn _) as [c|]; [|done].
  match goal with |- context [(?m ≫= ?f) s] =>
    pose proof (preserves_bind m f (preserves_chooseOrder _ _)
                  (fun a => preserves_save _ _ _) s H) as Hp;
    destruct ((m ≫= f) s) as [s' [a|e]] end; exact Hp.
Qed.

Lemma updateTask_preserves id b : handlerPreserves (updateTask id b).
Proof.
  intros s H. unfold updateTask.
  destruct (negb _); [done|].
  destruct (s !! id); [|done].
  destruct (ub_columnId b) as [cn|], (ub_order b) as [n|];
    try (pose proof (preserves_findByIdAndUpdate id (ub_title b)
                       (ub_description b) s H) as Hp;
         destruct (findByIdAndUpdate _ _ _ s) as [s' [a|e]]; exact Hp).
  destruct (parseColumn cn) as [c|]; [|done].
  pose proof (preserves_moveTaskToColumn id c n s H) as Hp.
  destruct (moveTaskToColumn id c n s) as [s' [a|e]]; exact Hp.
Qed.

Lemma deleteTask_preserves id : handlerPreserves (deleteTask id).
Proof.
  intros s H. unfold deleteTask.
  destruct (negb _); [done|].
  destruct (s !! id) as [t|]; [|done].
  match goal with |- context [(?m ≫= ?f) s] =>
    pose proof (preserves_bind m f (preserves_findByIdAndDelete _)
                  (fun a => preserves_updateMany _ _) s H) as Hp;
    destruct ((m ≫= f) s) as [s' [a|e]] end; exact Hp.
Qed.

Lemma reorder_preserves col tasks : handlerPreserves (reorder col tasks).
Proof.
  intros s H. unfold reorder.
  destruct tasks as [l|]; [|done].
  destruct (negb _); [done|].
  destruct (parseColumn _) as [c|]; [|done].
  destruct (negb _); [done|].
  pose proof (preserves_reorderTasks c l s H) as Hp.
  destruct (reorderTasks c l s) as [s' [a|e]]; exact Hp.
Qed.


Lemma runOp_preserves o s : uniqueIndex s → uniqueIndex (runOp o s).
Proof.
  destruct o; simpl.
  - apply createTask_preserves.
  - apply deleteTask_preserves.
  - apply preserves_moveTaskToColumn.
  - apply updateTask_preserves.
  - apply preserves_reorderTasks.
  - apply reorder_preserves.
  - done.
Qed.

Lemma runOps_preserves ops s : uniqueIndex s → uniqueIndex (runOps ops s).
Proof.
  revert s. unfold runOps.
  induction ops as [|o ops IH]; intros s Hd; simpl; [done|].
  apply IH. by apply runOp_preserves.
Qed.

(** C1. Starting from a collection in which no two tasks of a column share
    an order, every sequence of engine operations (insertTask, deleteTask,
    moveTask, bulkReorder, computeNextOrder, run one after the other,
    whether each succeeds or fails) leaves a collection in which no two
    tasks of any column share an order. *)
Theorem orders_stay_unique (ops : list Op) (s : gmap string Task) :
  distinctOrders s → distinctOrders (runOps ops s).
Proof.
  intros Hd. apply uniqueIndex_distinct, runOps_preserves, uniqueIndex_distinct, Hd.
Qed.


(** C1, on a run: a colliding bulk reorder, a move, a delete and an insert
    on the board A(1), B(2), C(3). *)
Lemma orders_stay_unique_witness :
  distinctOrders
    (runOps [BulkReorder todo [(idA, 1); (idB, 1)];
             MoveTask idC in_progress 1;
             DeleteTask idA;
             InsertTask idNew (mkCreateBody (Some "New task") None (Some "todo") (Some 1));
             ComputeNextOrder todo]
       boardABC).
Proof.
  apply (orders_stay_unique _ boardABC).
  apply uniqueIndex_distinct.
  apply (bool_decide_unpack (uniqueIndex boardABC)). vm_compute. exact I.
Defined.

(** ** Columns, orders and density *)

Lemma inColumn_true c t : inColumn c t = true ↔ columnId t = c.
Proof. unfold inColumn. apply bool_decide_eq_true. Qed.

Lemma columnId_shiftWhere P d t : columnId (shiftWhere P d t) = columnId t.
Proof. unfold shiftWhere. by destruct (P t). Qed.

Lemma distinctOrders_decide s : bool_decide (uniqueIndex s) = true → distinctOrders s.
Proof. intros H. apply bool_decide_eq_true in H. by apply uniqueIndex_distinct. Qed.

Lemma columnSize_fmap c (f : Task → Task) s :
  (∀ t, columnId (f t) = columnId t) →
  columnSize c (f <$> s) = columnSize c s.
Proof.
  intros Hf. unfold columnSize, findColumn. rewrite !length_map_to_list.
  rewrite map_filter_fmap, map_size_fmap. f_equal.
  apply map_filter_ext. intros i x _. simpl. by rewrite Hf.
Qed.

Lemma columnSize_delete c s id t :
  s !! id = Some t → columnId t = c →
  S (columnSize c (delete id s)) = columnSize c s.
Proof.
  intros Hi Hc. unfold columnSize, findColumn. rewrite !length_map_to_list.
  rewrite map_filter_delete. rewrite map_size_delete_Some.
  - assert (size (filter (λ p : string * Task, columnId p.2 = c) s) ≠ 0%nat).
    { apply map_size_ne_0_lookup. exists id. exists t.
      by apply map_lookup_filter_Some. }
    lia.
  - exists t. by apply map_lookup_filter_Some.
Qed.

Lemma hasOrder_columnOrders c s k : hasOrder c s k ↔ k ∈ columnOrders c s.
Proof.
  unfold hasOrder, columnOrders, findColumn. rewrite list_elem_of_fmap. split.
  - intros (id & t & Hs & Hc & Ho). exists (id, t). split; [done|].
    by apply elem_of_map_to_list, map_lookup_filter_Some.
  - intros ([id t] & Ho & Hin).
    apply elem_of_map_to_list, map_lookup_filter_Some in Hin as [Hs Hc].
    by exists id, t.
Qed.

Lemma denseb_sound c s : denseb c s = true → dense c s.
Proof.
  unfold denseb, dense, columnSize. intros H k.
  apply andb_prop in H as [Hin Hall].
  rewrite forallb_forall in Hin, Hall.
  rewrite hasOrder_columnOrders. unfold columnOrders in *.
  rewrite length_fmap in Hin, Hall. split.
  - intros Hk. apply list_elem_of_In, Hin in Hk. boolean. lia.
  - intros Hk. specialize (Hall k). rewrite bool_decide_eq_true in Hall.
    apply Hall, list_elem_of_In, elem_of_seqZ. lia.
Qed.

(** ** Delete with compaction *)

Section Delete.
Variables (s : gmap string Task) (id : string) (task : Task).
Hypothesis Hid : isObjectId id = true.
Hypothesis Hunique : distinctOrders s.
Hypothesis Htask : s !! id = Some task.

Lemma compacted_distinct : distinctOrders (compacted s id task).
Proof using Hunique Htask.
  unfold compacted. apply distinct_fmap; [|by apply distinct_delete].
  intros i j t u Hi Hj Hk.
  apply lookup_delete_Some in Hi as [Hni Hi], Hj as [Hnj Hj].
  assert (∀ k v, id ≠ k → s !! k = Some v → columnId v = columnId task →
                 order v ≠ order task) as Hfree.
  { intros k v Hk' Hv Hc Ho. apply Hk'. eapply Hunique; eauto. }
  unfold indexKey, shiftWhere, gtOrder in *.
  destruct (inColumn (columnId task) t && _) eqn:Et,
           (inColumn (columnId task) u && _) eqn:Eu;
    simpl in *; injection Hk as Hc Ho; boolean; f_equal; try lia; try congruence.
  - exfalso. assert (order u ≠ order task) by (eapply (Hfree j); eauto; congruence). lia.
  - exfalso. assert (order t ≠ order task) by (eapply (Hfree i); eauto; congruence). lia.
Qed.

Lemma deleteTask_result :
  deleteTask id s =
    (compacted s id task, mkResponse 200 (MessageBody "Task deleted successfully")).
Proof using Hid Hunique Htask.
  unfold deleteTask. rewrite Hid, Htask. simpl.
  unfold mbind, M_bind, findByIdAndDelete. rewrite Hid.
  unfold updateMany. fold (compacted s id task).
  rewrite commit_accepted; [done|].
  apply uniqueIndex_distinct, compacted_distinct.
Qed.

Lemma compacted_lookup j :
  compacted s id task !! j =
    if decide (j = id) then None
    else shiftWhere (gtOrder (columnId task) (order task)) (-1) <$> s !! j.
Proof.
  unfold compacted. rewrite lookup_fmap. case_decide as E.
  - subst. by rewrite lookup_delete_eq.
  - by rewrite lookup_delete_ne.
Qed.

Lemma compacted_dense :
  dense (columnId task) s →
  S (columnSize (columnId task) (compacted s id task)) = columnSize (columnId task) s
  ∧ dense (columnId task) (compacted s id task).
Proof using Hunique Htask.
  intros Hdense.
  assert (S (columnSize (columnId task) (compacted s id task))
          = columnSize (columnId task) s) as Hsize.
  { unfold compacted. rewrite columnSize_fmap by apply columnId_shiftWhere.
    by eapply columnSize_delete. }
  split; [exact Hsize|].
  assert (1 <= order task <= Z.of_nat (columnSize (columnId task) s)) as Hrange.
  { apply Hdense. by exists id, task. }
  intros k. split.
  - intros (j & u' & Hj & Hc & Ho).
    rewrite compacted_lookup in Hj. case_decide as E; [done|].
    destruct (s !! j) as [u|] eqn:Eu; [|done]. simpl in Hj. simplify_eq.
    rewrite columnId_shiftWhere in Hc.
    assert (1 <= order u <= Z.of_nat (columnSize (columnId task) s)) as Hu.
    { apply Hdense. by exists j, u. }
    assert (order u ≠ order task) as Hne.
    { intros Heq. apply E. eapply Hunique; eauto. }
    unfold shiftWhere, gtOrder. destruct (_ && _) eqn:Ea; simpl; boolean; try lia.
    congruence.
  - intros Hk. destruct (Z_lt_le_dec k (order task)) as [Hlt|Hge].
    + destruct (proj2 (Hdense k)) as (j & u & Hj & Hc & Ho); [lia|].
      exists j, u. rewrite compacted_lookup.
      rewrite decide_False by (intros ->; simplify_eq; lia).
      rewrite Hj. simpl. unfold shiftWhere, gtOrder.
      rewrite (proj2 (Z.ltb_ge _ _)) by lia. by rewrite andb_false_r.
    + destruct (proj2 (Hdense (k + 1))) as (j & u & Hj & Hc & Ho); [lia|].
      exists j, (incOrder (-1) u). rewrite compacted_lookup.
      rewrite decide_False by (intros ->; simplify_eq; lia).
      rewrite Hj. simpl. unfold shiftWhere, gtOrder.
      rewrite (proj2 (inColumn_true _ _)) by done.
      rewrite (proj2 (Z.ltb_lt _ _)) by lia. simpl. split; [done|].
      split; [done|lia].
Qed.
End Delete.



(** ** Insert with shift *)

Lemma parseColumn_columnName c : parseColumn (columnName c) = Some c.
Proof. by destruct c. Qed.

Lemma truthy_columnName c : truthyString (Some (columnName c)) = true.
Proof. by destruct c. Qed.

Lemma truthy_valid_title ti : validateTitle (trim ti) = [] → truthyString (Some ti) = true.
Proof. destruct ti; [by vm_compute|done]. Qed.

Lemma findOneAt_spec c k s :
  ∃ o, findOneAt c k s = (s, Ok o) ∧ (is_Some o ↔ hasOrder c s k).
Proof.
  unfold findOneAt. eexists. split; [reflexivity|].
  destruct (map_to_list _) as [|[i t] l] eqn:E; simpl.
  - apply map_to_list_empty_iff in E. split; [by intros [? ?]|].
    intros (id & t & Hs & Hc & Ho).
    assert (filter (λ p : string * Task, columnId p.2 = c ∧ order p.2 = k) s !! id
            = Some t) as Hf by (by apply map_lookup_filter_Some).
    rewrite E in Hf. by rewrite lookup_empty in Hf.
  - split; [intros _|by eexists].
    assert ((i, t) ∈ map_to_list
              (filter (λ p : string * Task, columnId p.2 = c ∧ order p.2 = k) s))
      as Hin by (rewrite E; left).
    apply elem_of_map_to_list, map_lookup_filter_Some in Hin as [Hs [Hc Ho]].
    by exists i, t.
Qed.

Section Insert.
Variables (s : gmap string Task) (newId ti : string) (de : option string).
Variables (c : Column) (k : Z).
Hypothesis Hunique : distinctOrders s.
Hypothesis Hfresh : s !! newId = None.
Hypothesis Htitle : validateTitle (trim ti) = [].
Hypothesis Hk : 1 <= k.

Lemma shiftedUp_distinct : distinctOrders (shiftedUp s c k).
Proof using Hunique.
  unfold shiftedUp. apply distinct_fmap; [|done].
  intros i j t u Hi Hj Hkey. unfold indexKey, shiftWhere, gteOrder in *.
  destruct (inColumn c t && _) eqn:Et, (inColumn c u && _) eqn:Eu;
    simpl in *; injection Hkey as Hc Ho; boolean; f_equal;
    try lia; congruence.
Qed.

Lemma validate_newTask : validate (newTask ti de c k) = [].
Proof using Htitle Hk.
  unfold validate, newTask. simpl. rewrite Htitle. unfold validateOrder.
  by rewrite (proj2 (Z.ltb_ge _ _)) by lia.
Qed.

(** The write of the new document at a key nobody holds. *)
Lemma save_new (s0 : gmap string Task) :
  s0 !! newId = None → distinctOrders s0 → ¬ hasOrder c s0 k →
  save true newId (newTask ti de c k) s0
    = (<[newId := newTask ti de c k]> s0, Ok (newTask ti de c k)).
Proof using Htitle Hk.
  intros Hnone Hd Hno. unfold save. rewrite validate_newTask.
  rewrite bool_decide_eq_false_2 by (rewrite Hnone; by intros [? ?]).
  simpl. unfold mbind, M_bind. rewrite commit_accepted; [done|].
  apply uniqueIndex_distinct, distinct_insert_free; [|done].
  intros j u _ Hj Hkey. apply Hno. unfold indexKey in Hkey.
  injection Hkey as ? ?. by exists j, u.
Qed.

Lemma createTask_explicit_steps :
  createTask newId (explicitBody ti de c k) s =
    match (taskOrder ← chooseOrder c (Some k);
           save true newId (newTask ti de c taskOrder)) s with
    | (s', Ok savedTask) => (s', mkResponse 201 (TaskBody newId (Some savedTask)))
    | (s', Throw error) => (s', createCatch error)
    end.
Proof using Htitle.
  unfold createTask, explicitBody. simpl cb_title. simpl cb_columnId.
  rewrite truthy_valid_title by done. rewrite truthy_columnName. simpl.
  by rewrite parseColumn_columnName.
Qed.

(** A task sits at [k]: the tasks from [k] on move up, then the write. *)
Lemma createTask_occupied :
  hasOrder c s k →
  createTask newId (explicitBody ti de c k) s =
    (<[newId := newTask ti de c k]> (shiftedUp s c k),
     mkResponse 201 (TaskBody newId (Some (newTask ti de c k)))).
Proof using Hunique Hfresh Htitle Hk.
  intros Hocc. rewrite createTask_explicit_steps.
  unfold chooseOrder, truthyOrder. rewrite (proj2 (Z.eqb_neq k 0)) by lia.
  unfold mbind at 1 2. unfold M_bind at 1 2.
  destruct (findOneAt_spec c k s) as (o & -> & Ho).
  destruct o as [ex|]; [|exfalso; apply Ho in Hocc; by destruct Hocc].
  unfold mbind at 1. unfold M_bind at 1. unfold updateMany.
  fold (shiftedUp s c k).
  rewrite commit_accepted by apply uniqueIndex_distinct, shiftedUp_distinct.
  unfold mret, M_ret.
  rewrite save_new; [done| | apply shiftedUp_distinct |].
  - unfold shiftedUp. by rewrite lookup_fmap, Hfresh.
  - intros (j & u' & Hj & Hc & Hord). unfold shiftedUp in Hj.
    rewrite lookup_fmap in Hj. destruct (s !! j) as [u|]; [|done].
    simpl in Hj. injection Hj as <-. unfold shiftWhere, gteOrder in *.
    destruct (inColumn c u && _) eqn:E; simpl in *; boolean; try lia. congruence.
Qed.

(** Nobody sits at [k]: the task is written and nothing else moves. *)
Lemma createTask_vacant :
  ¬ hasOrder c s k →
  createTask newId (explicitBody ti de c k) s =
    (<[newId := newTask ti de c k]> s,
     mkResponse 201 (TaskBody newId (Some (newTask ti de c k)))).
Proof using Hunique Hfresh Htitle Hk.
  intros Hvac. rewrite createTask_explicit_steps.
  unfold chooseOrder, truthyOrder. rewrite (proj2 (Z.eqb_neq k 0)) by lia.
  unfold mbind at 1 2. unfold M_bind at 1 2.
  destruct (findOneAt_spec c k s) as (o & -> & Ho).
  destruct o as [ex|]; [exfalso; apply Hvac, Ho; by eexists|].
  unfold mbind at 1. unfold M_bind at 1. unfold mret, M_ret.
  by rewrite save_new.
Qed.
End Insert.




(** ** C10: a falsy order is an absent order *)

Lemma maxOf_spec l :
  match maxOf l with
  | None => l = []
  | Some m => m ∈ ((fun p => order p.2) <$> l)
              ∧ ∀ k, k ∈ ((fun p => order p.2) <$> l) → k <= m
  end.
Proof.
  induction l as [|p l IH]; simpl; [done|].
  destruct (maxOf l) as [m|].
  - destruct IH as [Hin Hmax]. split.
    + destruct (Z.max_spec (order p.2) m) as [[_ ->]|[_ ->]];
        [by right | by left].
    + intros k Hk. apply elem_of_cons in Hk as [->|Hk]; [lia|].
      specialize (Hmax k Hk). lia.
  - subst l. simpl. split; [by left|].
    intros k Hk. apply list_elem_of_singleton in Hk. lia.
Qed.

Lemma lastOrder_spec c s :
  match lastOrder c s with
  | None => emptyColumn c s
  | Some m => isMaxOrder c s m
  end.
Proof.
  unfold lastOrder.
  pose proof (maxOf_spec (findColumn c s)) as H.
  destruct (maxOf (findColumn c s)) as [m|].
  - destruct H as [Hin Hmax]. split.
    + by apply hasOrder_columnOrders.
    + intros k Hk. by apply Hmax, hasOrder_columnOrders.
  - intros k Hk. apply hasOrder_columnOrders in Hk.
    unfold columnOrders in Hk. rewrite H in Hk. by apply elem_of_nil in Hk.
Qed.

Lemma nextOrder_spec c s :
  (emptyColumn c s → nextOrder c s = 1)
  ∧ (∀ m, isMaxOrder c s m → nextOrder c s = m + 1).
Proof.
  unfold nextOrder. pose proof (lastOrder_spec c s) as H.
  destruct (lastOrder c s) as [m|]; split.
  - intros He. destruct H as [Hm _]. by apply He in Hm.
  - intros m' [Hm' Hmax']. destruct H as [Hm Hmax].
    specialize (Hmax _ Hm'). specialize (Hmax' _ Hm). lia.
  - done.
  - intros m' [Hm' _]. by apply H in Hm'.
Qed.

Lemma nextOrder_vacant c s : ¬ hasOrder c s (nextOrder c s).
Proof.
  unfold nextOrder. pose proof (lastOrder_spec c s) as H.
  destruct (lastOrder c s) as [m|].
  - intros Hn. destruct H as [_ Hmax]. specialize (Hmax _ Hn). lia.
  - apply H.
Qed.

Lemma boardBelowOne_reachable :
  reorderTasks todo [(idA, -5)] boardA = (boardBelowOne, Ok ()).
Proof. vm_compute. reflexivity. Qed.




(** ** C9: bulk reorder skips the entries its filter does not match *)

Lemma updateOne_unmatched c id n s :
  isObjectId id = true → unmatched c id s → updateOne id c n s = (s, Ok ()).
Proof.
  intros Hid [Hnone|(t & Ht & Hc)]; unfold updateOne; rewrite Hid.
  - by rewrite Hnone.
  - rewrite Ht. by rewrite decide_False.
Qed.

(** An update of column [c] leaves alone what its filter cannot match. *)
Lemma updateOne_keeps_unmatched c id' n s id :
  unmatched c id s → (updateOne id' c n s).1 !! id = s !! id.
Proof.
  intros Hun. unfold updateOne.
  destruct (isObjectId id'); [|done].
  destruct (s !! id') as [t'|] eqn:E; [|done].
  case_decide as Hc; [|done].
  unfold commit. case_decide; [|done]. simpl.
  destruct (decide (id' = id)) as [->|Hne]; [|by rewrite lookup_insert_ne].
  destruct Hun as [Hnone|(t & Ht & Hc')]; congruence.
Qed.

Lemma unmatched_updateOne c id' n s id :
  unmatched c id s → unmatched c id (updateOne id' c n s).1.
Proof.
  intros Hun. unfold unmatched.
  rewrite (updateOne_keeps_unmatched c id' n s id Hun). exact Hun.
Qed.

Lemma reorderLoop_keeps_unmatched c l s id :
  unmatched c id s → (reorderLoop c l s).1 !! id = s !! id.
Proof.
  revert s. induction l as [|u l IH]; intros s Hun; simpl; [done|].
  unfold mbind, M_bind.
  pose proof (updateOne_keeps_unmatched c u.1 u.2 s id Hun) as Hk.
  pose proof (unmatched_updateOne c u.1 u.2 s id Hun) as Hu.
  destruct (updateOne u.1 c u.2 s) as [s1 [[]|e]]; simpl in *.
  - rewrite IH by done. exact Hk.
  - exact Hk.
Qed.

Lemma reorderLoop_skip c pre post id n s :
  isObjectId id = true → unmatched c id s →
  reorderLoop c (pre ++ (id, n) :: post) s = reorderLoop c (pre ++ post) s.
Proof.
  intros Hid. revert s. induction pre as [|u pre IH]; intros s Hun; simpl.
  - unfold mbind, M_bind. simpl. by rewrite updateOne_unmatched.
  - unfold mbind, M_bind.
    pose proof (unmatched_updateOne c u.1 u.2 s id Hun) as Hu.
    destruct (updateOne u.1 c u.2 s) as [s1 [[]|e]]; simpl in *; [|done].
    by apply IH.
Qed.

Lemma isObjectId_nonempty id : isObjectId id = true → String.eqb id "" = false.
Proof. by destruct id. Qed.

(** C9 fails for an identifier that is not 24 hexadecimal digits, such as
    xyz: no task is stored under it, yet the cast of the filter's [_id]
    throws, [reorderTasks] rethrows and the batch fails. *)
Lemma malformed_entry_counterexample : ¬ entrySkipped todo boardAB "xyz" 1.
Proof.
  unfold entrySkipped. intros H.
  assert (unmatched todo "xyz" boardAB) as Hun by (left; vm_compute; reflexivity).
  specialize (H Hun). vm_compute in H. discriminate H.
Qed.

(** C9, amended. In a bulk reorder of column C, an entry whose identifier is
    24 hexadecimal digits in the stored spelling and is absent from the
    store, or names a task of another column, is skipped: the call behaves
    exactly as the call without that entry (same collection, same outcome,
    in the static and in the handler), the entry alone succeeds and writes
    nothing, and the task it names, if any, is as it was. *)
Theorem unmatched_entry_is_skipped (c : Column) (s : gmap string Task)
    (pre post : list (string * Z)) (id : string) (n : Z) :
  isStoredSpelling id = true →
  unmatched c id s →
  reorderTasks c (pre ++ (id, n) :: post) s = reorderTasks c (pre ++ post) s
  ∧ reorderTasks c [(id, n)] s = (s, Ok ())
  ∧ (reorderTasks c (pre ++ (id, n) :: post) s).1 !! id = s !! id
  ∧ (n ≠ 0 →
     reorder (Some (columnName c)) (Some (pre ++ (id, n) :: post)) s
     = reorder (Some (columnName c)) (Some (pre ++ post)) s).
Proof.
  intros Hid Hun. apply isStoredSpelling_isObjectId in Hid.
  assert (reorderTasks c (pre ++ (id, n) :: post) s = reorderTasks c (pre ++ post) s)
    as Heq.
  { unfold reorderTasks, tryCatch. by rewrite reorderLoop_skip. }
  split; [exact Heq|]. split; [|split].
  - unfold reorderTasks, tryCatch. simpl. unfold mbind, M_bind.
    by rewrite updateOne_unmatched.
  - unfold reorderTasks, tryCatch.
    pose proof (reorderLoop_keeps_unmatched c (pre ++ (id, n) :: post) s id Hun) as Hk.
    destruct (reorderLoop c (pre ++ (id, n) :: post) s) as [s1 [[]|e]]; exact Hk.
  - intros Hn0. unfold reorder. rewrite truthy_columnName. simpl negb. cbv iota.
    simpl default. rewrite parseColumn_columnName.
    rewrite !forallb_app. simpl forallb.
    assert (wellFormedEntry (id, n) = true) as ->.
    { unfold wellFormedEntry. simpl. rewrite isObjectId_nonempty by done.
      by rewrite (proj2 (Z.eqb_neq n 0)). }
    simpl andb. by rewrite Heq.
Qed.

(** C9, on a board: an entry for an identifier that is not in the store and
    for a task of another column, among entries that match. *)
Lemma unmatched_entry_is_skipped_witness :
  reorderTasks todo ([(idA, 1)] ++ (idNew, 7) :: [(idB, 2)]) boardTwoColumns
    = reorderTasks todo ([(idA, 1)] ++ [(idB, 2)]) boardTwoColumns
  ∧ reorderTasks in_progress [(idA, 5)] boardTwoColumns = (boardTwoColumns, Ok ()).
Proof.
  split.
  - apply (unmatched_entry_is_skipped todo boardTwoColumns [(idA, 1)] [(idB, 2)]
             idNew 7); [vm_compute; reflexivity|].
    left. vm_compute. reflexivity.
  - apply (unmatched_entry_is_skipped in_progress boardTwoColumns [] [] idA 5);
      [vm_compute; reflexivity|].
    right. exists (card "Task A" todo 1). split; [vm_compute; reflexivity|].
    simpl. discriminate.
Defined.

(** ** Shifts that run into the unique index *)

(** A multi-document update that brings two documents to one key is
    rejected as a whole. *)
Lemma updateMany_collision (P : Task → bool) (d : Z)
    (s : gmap string Task) i j t u :
  s !! i = Some t → s !! j = Some u → i ≠ j →
  indexKey (shiftWhere P d t) = indexKey (shiftWhere P d u) →
  updateMany P d s = (s, Throw (MongoServerError 11000)).
Proof.
  intros Hi Hj Hne Hkey. unfold updateMany. apply commit_rejected.
  intros Hu. apply uniqueIndex_distinct in Hu. apply Hne.
  unfold indexKey in Hkey. injection Hkey as Hc Ho.
  eapply (Hu i j); [| |exact Hc|exact Ho]; rewrite lookup_fmap.
  - by rewrite Hi.
  - by rewrite Hj.
Qed.

Lemma moveTaskToColumn_shift_throws id t c n (s : gmap string Task) e :
  isObjectId id = true → s !! id = Some t →
  moveShifts (columnId t) (order t) c n s = (s, Throw e) →
  moveTaskToColumn id c n s
    = (s, Throw (Error ("Failed to move task: " ++ errorMessage e)%string)).
Proof.
  intros Hid Ht Hsh. unfold moveTaskToColumn, tryCatch, mbind, M_bind, findById.
  rewrite Hid, Ht, Hsh. reflexivity.
Qed.

Section Rejections.
Variables (s : gmap string Task) (id id' : string) (t u : Task).
Hypothesis Hid : isObjectId id = true.
Hypothesis Ht : s !! id = Some t.
Hypothesis Hu : s !! id' = Some u.
Hypothesis Hcol : columnId u = columnId t.

(** Moving to another column: the task just below in the source column
    would take the order the moved task still holds. *)
Lemma move_across_rejected c n :
  c ≠ columnId t → order u = order t + 1 →
  moveTaskToColumn id c n s = (s, Throw moveRejected).
Proof using Hid Ht Hu Hcol.
  intros Hc Ho.
  apply (moveTaskToColumn_shift_throws id t c n s (MongoServerError 11000) Hid Ht).
  unfold moveShifts. rewrite decide_True by congruence.
  unfold mbind, M_bind.
  rewrite (updateMany_collision _ _ s id id' t u Ht Hu); [done| |].
  - intros ->. simplify_eq. lia.
  - unfold indexKey, shiftWhere, gtOrder, inColumn.
    rewrite !bool_decide_eq_true_2 by done.
    rewrite Z.ltb_irrefl, (proj2 (Z.ltb_lt (order t) (order u))) by lia.
    simpl. f_equal; [done|lia].
Qed.

(** Moving later in the same column: as above. *)
Lemma move_later_rejected n :
  order t < n → order u = order t + 1 →
  moveTaskToColumn id (columnId t) n s = (s, Throw moveRejected).
Proof using Hid Ht Hu Hcol.
  intros Hn Ho.
  apply (moveTaskToColumn_shift_throws id t _ n s (MongoServerError 11000) Hid Ht).
  unfold moveShifts. rewrite decide_False by (intros H; by apply H).
  rewrite (proj2 (Z.ltb_ge n (order t))) by lia.
  rewrite (proj2 (Z.ltb_lt (order t) n)) by lia.
  apply (updateMany_collision _ _ s id id' t u Ht Hu).
  - intros ->. simplify_eq. lia.
  - unfold indexKey, shiftWhere, gtLteOrder, inColumn.
    rewrite !bool_decide_eq_true_2 by done.
    rewrite Z.ltb_irrefl, (proj2 (Z.ltb_lt (order t) (order u))) by lia.
    rewrite (proj2 (Z.leb_le (order u) n)) by lia.
    simpl. f_equal; [done|lia].
Qed.

(** Moving earlier in the same column: the task just above would take the
    order the moved task still holds. *)
Lemma move_earlier_rejected n :
  n < order t → order u = order t - 1 →
  moveTaskToColumn id (columnId t) n s = (s, Throw moveRejected).
Proof using Hid Ht Hu Hcol.
  intros Hn Ho.
  apply (moveTaskToColumn_shift_throws id t _ n s (MongoServerError 11000) Hid Ht).
  unfold moveShifts. rewrite decide_False by (intros H; by apply H).
  rewrite (proj2 (Z.ltb_lt n (order t))) by lia.
  apply (updateMany_collision _ _ s id id' t u Ht Hu).
  - intros ->. simplify_eq. lia.
  - unfold indexKey, shiftWhere, gteLtOrder, inColumn.
    rewrite !bool_decide_eq_true_2 by done.
    rewrite Z.ltb_irrefl, andb_false_r.
    rewrite (proj2 (Z.leb_le n (order u))) by lia.
    rewrite (proj2 (Z.ltb_lt (order u) (order t))) by lia.
    simpl. f_equal; [done|lia].
Qed.

(** Bulk reorder: an entry that gives a task the order another task of the
    column holds stops the batch. *)
Lemma reorder_entry_rejected n rest :
  id ≠ id' → order u = n →
  reorderTasks (columnId t) ((id, n) :: rest) s = (s, Throw reorderRejected).
Proof using Hid Ht Hu Hcol.
  intros Hne Ho. unfold reorderTasks, tryCatch. simpl.
  unfold mbind, M_bind, updateOne. rewrite Hid, Ht, decide_True by done.
  rewrite commit_rejected; [done|].
  intros Hd. apply uniqueIndex_distinct in Hd. apply Hne.
  eapply (Hd id id' (setOrder n t) u).
  - by rewrite lookup_insert_eq.
  - by rewrite lookup_insert_ne.
  - simpl. congruence.
  - simpl. congruence.
Qed.
End Rejections.

(** Moving a task to the order it has: nothing is shifted and the save
    rewrites the document as it is. *)
Lemma move_to_own_order (s : gmap string Task) id t :
  isObjectId id = true → s !! id = Some t → distinctOrders s → validate t = [] →
  moveTaskToColumn id (columnId t) (order t) s = (s, Ok t).
Proof.
  intros Hid Ht Hd Hv.
  unfold moveTaskToColumn, tryCatch, mbind, M_bind, findById. rewrite Hid, Ht.
  unfold moveShifts. rewrite decide_False by (intros H; by apply H).
  rewrite Z.ltb_irrefl. unfold mret, M_ret.
  assert (setColumnOrder (columnId t) (order t) t = t) as -> by (by destruct t).
  unfold save. rewrite Hv. simpl. unfold mbind, M_bind.
  rewrite insert_id by done. rewrite commit_accepted; [done|].
  by apply uniqueIndex_distinct.
Qed.

(** In a dense column every move to another position of the column is
    rejected, and so is every move to another column of a task that is not
    the last of its column. *)
Lemma dense_move_within_rejected (s : gmap string Task) id t n :
  isObjectId id = true → s !! id = Some t → dense (columnId t) s →
  1 <= n <= Z.of_nat (columnSize (columnId t) s) → n ≠ order t →
  moveTaskToColumn id (columnId t) n s = (s, Throw moveRejected).
Proof.
  intros Hid Ht Hdense Hn Hne.
  assert (1 <= order t <= Z.of_nat (columnSize (columnId t) s)) as Ho.
  { apply Hdense. by exists id, t. }
  destruct (Z_lt_le_dec (order t) n) as [Hlt|Hge].
  - destruct (proj2 (Hdense (order t + 1))) as (id' & u & Hu & Hc & Hou); [lia|].
    by apply (move_later_rejected s id id' t u).
  - destruct (proj2 (Hdense (order t - 1))) as (id' & u & Hu & Hc & Hou); [lia|].
    apply (move_earlier_rejected s id id' t u); [done..|lia|done].
Qed.

Lemma dense_move_across_rejected (s : gmap string Task) id t c n :
  isObjectId id = true → s !! id = Some t → dense (columnId t) s →
  order t < Z.of_nat (columnSize (columnId t) s) → c ≠ columnId t →
  moveTaskToColumn id c n s = (s, Throw moveRejected).
Proof.
  intros Hid Ht Hdense Hlast Hc.
  assert (1 <= order t <= Z.of_nat (columnSize (columnId t) s)) as Ho.
  { apply Hdense. by exists id, t. }
  destruct (proj2 (Hdense (order t + 1))) as (id' & u & Hu & Hcu & Hou); [lia|].
  by apply (move_across_rejected s id id' t u).
Qed.

(** An entry that restates the order its task has writes the document as it
    is. *)
Lemma updateOne_same_order (s : gmap string Task) id t :
  isObjectId id = true → s !! id = Some t → distinctOrders s →
  updateOne id (columnId t) (order t) s = (s, Ok ()).
Proof.
  intros Hid Ht Hd. unfold updateOne. rewrite Hid, Ht, decide_True by done.
  assert (setOrder (order t) t = t) as -> by (by destruct t).
  rewrite insert_id by done. apply commit_accepted. by apply uniqueIndex_distinct.
Qed.

(** In a dense column, a batch of well-formed entries with orders in
    1, ..., N is rejected as soon as one entry changes the order of a task
    of the column: bulk reorder applies no permutation but the identity. *)
Lemma dense_reorder_rejected (s : gmap string Task) c (l : list (string * Z)) :
  distinctOrders s → dense c s →
  Forall (fun e => isObjectId e.1 = true
                   ∧ 1 <= e.2 <= Z.of_nat (columnSize c s)) l →
  Exists (fun e => ∃ t, s !! e.1 = Some t ∧ columnId t = c ∧ order t ≠ e.2) l →
  reorderTasks c l s = (s, Throw reorderRejected).
Proof.
  intros Hd Hdense Hall Hex.
  assert (reorderLoop c l s = (s, Throw (MongoServerError 11000))) as Hloop.
  { induction l as [|[id n] l IH]; [by apply Exists_nil in Hex|].
    apply Forall_cons in Hall as [[Hid Hn] Hall]. simpl in Hid, Hn.
    simpl. unfold mbind, M_bind.
    destruct (s !! id) as [t|] eqn:Ht.
    - destruct (decide (columnId t = c)) as [Hc|Hc].
      + destruct (decide (order t = n)) as [Ho|Ho].
        * subst c n. rewrite updateOne_same_order by done.
          apply IH; [done|]. apply Exists_cons in Hex as [(t' & Ht' & _ & Hne)|Hex];
            [|done]. simpl in *. congruence.
        * destruct (proj2 (Hdense n) Hn) as (id' & u & Hu & Hcu & Hou).
          unfold updateOne. rewrite Hid, Ht, decide_True by done.
          rewrite commit_rejected; [done|].
          intros Huniq. apply uniqueIndex_distinct in Huniq.
          assert (id = id') as <-.
          { eapply (Huniq id id' (setOrder n t) u).
            - by rewrite lookup_insert_eq.
            - destruct (decide (id = id')) as [<-|Hne]; [|by rewrite lookup_insert_ne].
              simplify_eq.
            - simpl. congruence.
            - simpl. congruence. }
          simplify_eq.
      + rewrite updateOne_unmatched; [|done|right; by exists t].
        apply IH; [done|]. apply Exists_cons in Hex as [(t' & Ht' & Hc' & _)|Hex];
          [|done]. simpl in *. congruence.
    - rewrite updateOne_unmatched; [|done|by left].
      apply IH; [done|]. apply Exists_cons in Hex as [(t' & Ht' & _)|Hex];
        [|done]. simpl in *. congruence. }
  unfold reorderTasks, tryCatch. by rewrite Hloop.
Qed.

(** The seeded board satisfies the index and is dense in each column; the
    request the README gives as its example of a move between columns (the
    first task of todo to in-progress at 2) and its example of a move within
    a column (to position 1, here for the third task of todo) are rejected
    there. *)
Lemma seeded_board_moves_rejected :
  distinctOrders seeded
  ∧ dense todo seeded ∧ dense in_progress seeded ∧ dense completed seeded
  ∧ updateTask "64a7b8c9d1e2f3a4b5c6d701" (moveBody "in-progress" 2) seeded
    = (seeded, updateFailed)
  ∧ updateTask "64a7b8c9d1e2f3a4b5c6d703" (moveBody "todo" 1) seeded
    = (seeded, updateFailed).
Proof.
  split; [apply distinctOrders_decide; vm_compute; reflexivity|].
  split; [apply denseb_sound; vm_compute; reflexivity|].
  split; [apply denseb_sound; vm_compute; reflexivity|].
  split; [apply denseb_sound; vm_compute; reflexivity|].
  split; vm_compute; reflexivity.
Qed.

(** ** What an accepted move does *)

Lemma commit_Ok (s' s r : gmap string Task) x :
  commit s' s = (r, Ok x) → r = s'.
Proof. unfold commit. case_decide; congruence. Qed.

Lemma updateMany_Ok P d (s r : gmap string Task) x :
  updateMany P d s = (r, Ok x) → r = shiftWhere P d <$> s.
Proof. unfold updateMany. apply commit_Ok. Qed.

Lemma save_Ok isNew id t (s r : gmap string Task) t' :
  save isNew id t s = (r, Ok t') → r = <[id := t]> s ∧ t' = t.
Proof.
  unfold save. destruct (validate t); [|discriminate].
  destruct (isNew && _); [discriminate|].
  unfold mbind, M_bind. destruct (commit _ s) as [r' [[]|e]] eqn:E; [|discriminate].
  apply commit_Ok in E. unfold mret, M_ret. intros [= <- <-]. by subst.
Qed.

Lemma moveTaskToColumn_Ok id c n (s s' : gmap string Task) t t' :
  s !! id = Some t →
  moveTaskToColumn id c n s = (s', Ok t') →
  ∃ s1, moveShifts (columnId t) (order t) c n s = (s1, Ok ())
        ∧ s' = <[id := setColumnOrder c n t]> s1
        ∧ t' = setColumnOrder c n t.
Proof.
  intros Ht. unfold moveTaskToColumn, tryCatch, mbind, M_bind, findById.
  destruct (isObjectId id); [|discriminate]. rewrite Ht.
  destruct (moveShifts _ _ c n s) as [s1 [[]|e]]; [|discriminate].
  destruct (save false id _ s1) as [s2 [t2|e]] eqn:E; [|discriminate].
  apply save_Ok in E as [-> ->]. intros [= <- <-]. by exists s1.
Qed.

(** An accepted move to another column: the source column closes the gap,
    the target column opens the slot, the task is written there. *)
Lemma move_across_effect id c n (s s' : gmap string Task) t t' :
  s !! id = Some t → c ≠ columnId t →
  moveTaskToColumn id c n s = (s', Ok t') →
  t' = setColumnOrder c n t
  ∧ s' = <[id := t']>
           (shiftWhere (gteOrder c n) 1
              <$> (shiftWhere (gtOrder (columnId t) (order t)) (-1) <$> s)).
Proof.
  intros Ht Hc Hm. apply (moveTaskToColumn_Ok id c n s s' t t' Ht) in Hm
    as (s1 & Hsh & -> & ->).
  split; [done|]. f_equal.
  unfold moveShifts in Hsh. rewrite decide_True in Hsh by congruence.
  unfold mbind, M_bind in Hsh.
  destruct (updateMany _ _ s) as [s0 [[]|e]] eqn:E0; [|discriminate].
  apply updateMany_Ok in E0. apply updateMany_Ok in Hsh. by subst.
Qed.

(** An accepted move within the column: one rotation of the orders between
    the old and the new position. *)
Lemma move_within_effect id n (s s' : gmap string Task) t t' :
  s !! id = Some t →
  moveTaskToColumn id (columnId t) n s = (s', Ok t') →
  t' = setOrder n t
  ∧ s' = <[id := t']>
           (if Z.ltb n (order t)
            then shiftWhere (gteLtOrder (columnId t) n (order t)) 1 <$> s
            else if Z.ltb (order t) n
                 then shiftWhere (gtLteOrder (columnId t) (order t) n) (-1) <$> s
                 else s).
Proof.
  intros Ht Hm. apply (moveTaskToColumn_Ok id _ n s s' t t' Ht) in Hm
    as (s1 & Hsh & -> & ->).
  split; [done|]. f_equal.
  unfold moveShifts in Hsh. rewrite decide_False in Hsh by (intros H; by apply H).
  destruct (Z.ltb n (order t)); [by apply updateMany_Ok in Hsh|].
  destruct (Z.ltb (order t) n); [by apply updateMany_Ok in Hsh|].
  unfold mret, M_ret in Hsh. congruence.
Qed.

(** ** The engine on the boards *)

(** C2, at todo = A(1), B(2), in-progress = D(1), moving A to in-progress at
    1: the shift of the source column brings B to order 1 while A still
    holds it, the index rejects the update, and nothing has moved. *)
Theorem move_across_hits_index :
  moveTaskToColumn idA in_progress 1 boardTwoColumns
    = (boardTwoColumns, Throw moveRejected)
  ∧ updateTask idA (moveBody "in-progress" 1) boardTwoColumns
    = (boardTwoColumns, updateFailed).
Proof.
  assert (moveTaskToColumn idA in_progress 1 boardTwoColumns
          = (boardTwoColumns, Throw moveRejected)) as H.
  { apply (move_across_rejected boardTwoColumns idA idB
             (card "Task A" todo 1) (card "Task B" todo 2)); by vm_compute. }
  split; [exact H|].
  unfold updateTask, moveBody. simpl ub_columnId. simpl ub_order.
  change (isObjectId idA) with true. simpl negb. cbv iota.
  change (boardTwoColumns !! idA) with (Some (card "Task A" todo 1)).
  change (parseColumn "in-progress") with (Some in_progress). cbv iota.
  rewrite H. reflexivity.
Qed.

(** C3, on its scenario, todo = A(1), B(2), C(3), moving B to 3: the shift
    brings C to order 2 while B still holds it, the index rejects the
    update, and the board stays A=1, B=2, C=3. *)
Theorem move_within_hits_index :
  moveTaskToColumn idB todo 3 boardABC = (boardABC, Throw moveRejected)
  ∧ updateTask idB (moveBody "todo" 3) boardABC = (boardABC, updateFailed).
Proof.
  assert (moveTaskToColumn idB todo 3 boardABC = (boardABC, Throw moveRejected)) as H.
  { apply (move_later_rejected boardABC idB idC
             (card "Task B" todo 2) (card "Task C" todo 3)); by vm_compute. }
  split; [exact H|].
  unfold updateTask, moveBody. simpl ub_columnId. simpl ub_order.
  change (isObjectId idB) with true. simpl negb. cbv iota.
  change (boardABC !! idB) with (Some (card "Task B" todo 2)).
  change (parseColumn "todo") with (Some todo). cbv iota.
  rewrite H. reflexivity.
Qed.

(** C6, at todo = A(1), B(2), in-progress = D(1), a board with distinct
    orders and dense columns: B moves to in-progress at 1, which is
    accepted; moving it back to todo at 2 is rejected, because the shift of
    in-progress brings D to order 1 while B still holds it. D is left at
    order 2 and B in in-progress. *)
Theorem round_trip_hits_index :
  (distinctOrders boardTwoColumns
   ∧ dense todo boardTwoColumns ∧ dense in_progress boardTwoColumns)
  ∧ moveTaskToColumn idB in_progress 1 boardTwoColumns
    = (boardAfterMove, Ok (card "Task B" in_progress 1))
  ∧ moveTaskToColumn idB todo 2 boardAfterMove = (boardAfterMove, Throw moveRejected)
  ∧ boardTwoColumns !! idD = Some (card "Task D" in_progress 1)
  ∧ boardAfterMove !! idD = Some (card "Task D" in_progress 2).
Proof.
  split; [|split; [|split; [|split]]].
  - split; [apply distinctOrders_decide; vm_compute; reflexivity|].
    split; apply denseb_sound; vm_compute; reflexivity.
  - vm_compute. reflexivity.
  - apply (move_across_rejected boardAfterMove idB idD
             (card "Task B" in_progress 1) (card "Task D" in_progress 2));
      by vm_compute.
  - reflexivity.
  - reflexivity.
Qed.

(** C8, at todo = A(1), B(2), with the permutation A:=2, B:=1: the first
    update gives A the order B still holds, the index rejects it, and the
    batch stops with nothing reordered. *)
Theorem bulk_reorder_hits_index :
  reorderTasks todo [(idA, 2); (idB, 1)] boardAB = (boardAB, Throw reorderRejected)
  ∧ reorder (Some "todo") (Some [(idA, 2); (idB, 1)]) boardAB
    = (boardAB, mkResponse 500 (ErrorBody "Failed to reorder tasks")).
Proof.
  assert (reorderTasks todo [(idA, 2); (idB, 1)] boardAB
          = (boardAB, Throw reorderRejected)) as H.
  { apply (reorder_entry_rejected boardAB idA idB
             (card "Task A" todo 1) (card "Task B" todo 2)); by vm_compute. }
  split; [exact H|].
  unfold reorder. simpl truthyString. simpl negb. cbv iota.
  change (parseColumn (default "" (Some "todo"))) with (Some todo). cbv iota.
  change (forallb wellFormedEntry [(idA, 2); (idB, 1)]) with true.
  simpl negb. cbv iota. rewrite H. reflexivity.
Qed.

(** ** C7: a missing task *)

(** C7. For an identifier in the stored spelling under which no task is
    stored, nothing is written by either operation, and the handlers answer
    404 from their own lookup; but [moveTaskToColumn] wraps its not-found
    error: what it throws has the same name as its duplicate-key failure and
    the handler's catch maps both to the same 500 answer. *)
Theorem missing_task_error_is_wrapped (s : gmap string Task) (id : string)
    (c : Column) (n : Z) (b : UpdateBody) :
  isStoredSpelling id = true →
  s !! id = None →
  moveTaskToColumn id c n s = (s, Throw moveNotFound)
  ∧ errorName moveNotFound = errorName moveRejected
  ∧ updateCatch moveNotFound = updateFailed
  ∧ updateCatch moveRejected = updateFailed
  ∧ updateCatch (Error "Task not found") = notFound
  ∧ deleteTask id s = (s, notFound)
  ∧ updateTask id b s = (s, notFound).
Proof.
  intros Hid Hnone. apply isStoredSpelling_isObjectId in Hid. repeat split.
  - unfold moveTaskToColumn, tryCatch, mbind, M_bind, findById.
    by rewrite Hid, Hnone.
  - unfold deleteTask. by rewrite Hid, Hnone.
  - unfold updateTask. by rewrite Hid, Hnone.
Qed.

(** C7, on a board: moving a task that is not on the board A(1), B(2). *)
Lemma missing_task_error_is_wrapped_witness :
  moveTaskToColumn idNew todo 1 boardAB = (boardAB, Throw moveNotFound)
  ∧ updateCatch moveNotFound = updateFailed.
Proof.
  destruct (missing_task_error_is_wrapped boardAB idNew todo 1 (moveBody "todo" 1))
    as (H1 & _ & H2 & _); [vm_compute; reflexivity | vm_compute; reflexivity |].
  split; [exact H1 | exact H2].
Defined.

(** * Further properties of the engine *)

(** ** Next order and appending *)

Lemma columnSize_insert_fresh c (s : gmap string Task) id t :
  s !! id = None → columnId t = c →
  columnSize c (<[id := t]> s) = S (columnSize c s).
Proof.
  intros Hnone Hc. unfold columnSize, findColumn. rewrite !length_map_to_list.
  rewrite map_filter_insert_True by done.
  apply map_size_insert_None. apply map_lookup_filter_None. by left.
Qed.

Lemma columnSize_insert_other c (s : gmap string Task) id t :
  s !! id = None → columnId t ≠ c →
  columnSize c (<[id := t]> s) = columnSize c s.
Proof.
  intros Hnone Hc. unfold columnSize, findColumn. rewrite !length_map_to_list.
  rewrite map_filter_insert_False by done. by rewrite delete_id.
Qed.

Lemma hasOrder_insert_fresh c (s : gmap string Task) id t k :
  s !! id = None →
  hasOrder c (<[id := t]> s) k ↔ hasOrder c s k ∨ (columnId t = c ∧ order t = k).
Proof.
  intros Hnone. unfold hasOrder. split.
  - intros (j & u & Hj & Hc & Ho). rewrite lookup_insert in Hj.
    case_decide; simplify_eq; [by right|]. left. by exists j, u.
  - intros [(j & u & Hj & Hc & Ho)|[Hc Ho]].
    + exists j, u. rewrite lookup_insert_ne by (intros ->; congruence). done.
    + exists id, t. by rewrite lookup_insert_eq.
Qed.

Lemma dense_nextOrder c s :
  dense c s → nextOrder c s = Z.of_nat (columnSize c s) + 1.
Proof.
  intros Hdense. destruct (nextOrder_spec c s) as [Hempty Hmax].
  destruct (decide (columnSize c s = 0%nat)) as [Hz|Hnz].
  - rewrite Hz. simpl. apply Hempty. intros k Hk. apply Hdense in Hk. lia.
  - apply Hmax. split.
    + apply Hdense. lia.
    + intros k Hk. apply Hdense in Hk. lia.
Qed.

(** The write of a task at the end of a dense column leaves it dense. *)
Lemma dense_insert_end c (s : gmap string Task) id t :
  s !! id = None → columnId t = c →
  order t = Z.of_nat (columnSize c s) + 1 →
  dense c s → dense c (<[id := t]> s).
Proof.
  intros Hnone Hc Ho Hdense k.
  rewrite hasOrder_insert_fresh by done.
  rewrite columnSize_insert_fresh by done. rewrite (Hdense k). split.
  - intros [?|[_ ?]]; lia.
  - intros Hk. destruct (decide (k = Z.of_nat (columnSize c s) + 1)).
    + right. split; [done|lia].
    + left. lia.
Qed.

(** The handler on a body without order, step by step. *)
Lemma createTask_append (s : gmap string Task) newId ti de c :
  distinctOrders s → s !! newId = None → validateTitle (trim ti) = [] →
  1 <= nextOrder c s →
  createTask newId (mkCreateBody (Some ti) de (Some (columnName c)) None) s
    = (<[newId := newTask ti de c (nextOrder c s)]> s,
       mkResponse 201 (TaskBody newId (Some (newTask ti de c (nextOrder c s))))).
Proof.
  intros Hd Hfresh Hti Hn.
  unfold createTask. simpl cb_title. simpl cb_columnId.
  rewrite truthy_valid_title by done. rewrite truthy_columnName. simpl.
  rewrite parseColumn_columnName.
  unfold mbind, M_bind. change (chooseOrder c None s) with (s, Ok (nextOrder c s)).
  cbv beta iota. simpl default.
  by rewrite (save_new newId ti de c (nextOrder c s) Hti Hn s Hfresh Hd
                (nextOrder_vacant c s)).
Qed.

(** In a dense column no two tasks hold consecutive orders from the last
    order on. *)
Lemma dense_spacedFrom c (s : gmap string Task) k :
  dense c s → Z.of_nat (columnSize c s) <= k → spacedFrom c s k.
Proof.
  intros Hdense Hk j Hj Hh Hh'. apply Hdense in Hh, Hh'. lia.
Qed.

Lemma dense_safeOrders c (s : gmap string Task) :
  dense c s → Z.of_nat (columnSize c s) <= maxSafeInteger → safeOrders c s.
Proof.
  intros Hdense Hn k Hk. apply Hdense in Hk. unfold maxSafeInteger in *. lia.
Qed.

(** X1. [getNextOrder] reads without writing; in a column whose orders are
    safe integers the order it returns is above every order of the column,
    hence held by no task of it; it is 1 in an empty column, one more than
    an order in use otherwise, and N+1 in a dense column of N tasks. *)
Theorem next_order_is_above_the_column (c : Column) (s : gmap string Task) :
  safeOrders c s →
  getNextOrder c s = (s, Ok (nextOrder c s))
  ∧ (∀ id t, s !! id = Some t → columnId t = c → order t < nextOrder c s)
  ∧ ¬ hasOrder c s (nextOrder c s)
  ∧ (emptyColumn c s → nextOrder c s = 1)
  ∧ (¬ emptyColumn c s → hasOrder c s (nextOrder c s - 1))
  ∧ (dense c s → nextOrder c s = Z.of_nat (columnSize c s) + 1).
Proof.
  intros Hsafe.
  split; [reflexivity|]. split; [|split; [apply nextOrder_vacant|]].
  - intros id t Ht Hc. unfold nextOrder. pose proof (lastOrder_spec c s) as H.
    destruct (lastOrder c s) as [m|].
    + destruct H as [_ Hmax]. assert (order t <= m); [|lia].
      apply Hmax. by exists id, t.
    + exfalso. apply (H (order t)). by exists id, t.
  - split; [apply nextOrder_spec|]. split; [|apply dense_nextOrder].
    intros Hne. unfold nextOrder. pose proof (lastOrder_spec c s) as H.
    destruct (lastOrder c s) as [m|]; [|done].
    destruct H as [Hm _]. by replace (m + 1 - 1) with m by lia.
Qed.

(** X1, on a board: the next order of todo = A(1), B(2) is 3, which nobody
    holds. *)
Lemma next_order_is_above_the_column_witness :
  getNextOrder todo boardAB = (boardAB, Ok 3) ∧ ¬ hasOrder todo boardAB 3.
Proof.
  assert (safeOrders todo boardAB) as H.
  { apply dense_safeOrders; [apply denseb_sound; vm_compute; reflexivity|].
    vm_compute. discriminate. }
  destruct (next_order_is_above_the_column todo boardAB H) as (Hget & _ & Hfree & _).
  split; [exact Hget | exact Hfree].
Defined.

(** X2. A task created without an order in a dense column of N tasks is
    written at N+1 and answered 201; no other task changes, the column is
    dense with N+1 tasks, the other columns keep their size, and the next
    order of the column is N+2. *)
Theorem append_keeps_density (s : gmap string Task) (newId ti : string)
    (de : option string) (c : Column) :
  distinctOrders s →
  s !! newId = None →
  validateTitle (trim ti) = [] →
  dense c s →
  let n := Z.of_nat (columnSize c s) + 1 in
  let r := createTask newId (mkCreateBody (Some ti) de (Some (columnName c)) None) s in
  r = (<[newId := newTask ti de c n]> s,
       mkResponse 201 (TaskBody newId (Some (newTask ti de c n))))
  ∧ dense c r.1
  ∧ columnSize c r.1 = S (columnSize c s)
  ∧ (∀ c', c' ≠ c → columnSize c' r.1 = columnSize c' s)
  ∧ nextOrder c r.1 = n + 1.
Proof.
  intros Hd Hfresh Hti Hdense n r.
  assert (nextOrder c s = n) as Hn by (by apply dense_nextOrder).
  assert (r = (<[newId := newTask ti de c n]> s,
               mkResponse 201 (TaskBody newId (Some (newTask ti de c n))))) as Hr.
  { subst r. rewrite createTask_append by (done || lia). by rewrite Hn. }
  rewrite Hr. simpl.
  assert (dense c (<[newId := newTask ti de c n]> s)) as Hdense'
    by (by apply dense_insert_end).
  assert (columnSize c (<[newId := newTask ti de c n]> s) = S (columnSize c s))
    as Hsize by (by apply columnSize_insert_fresh).
  split; [done|]. split; [done|]. split; [done|]. split.
  - intros c' Hc'. apply columnSize_insert_other; [done|]. simpl. congruence.
  - rewrite (dense_nextOrder _ _ Hdense'), Hsize. lia.
Qed.

(** X2, on a board: a task appended to todo = A(1), B(2). *)
Lemma append_keeps_density_witness :
  dense todo
    (createTask idNew (mkCreateBody (Some "New task") None (Some "todo") None)
       boardAB).1.
Proof.
  assert (distinctOrders boardAB) as H1
    by (apply distinctOrders_decide; vm_compute; reflexivity).
  assert (boardAB !! idNew = None) as H2 by (vm_compute; reflexivity).
  assert (validateTitle (trim "New task") = []) as H3 by (vm_compute; reflexivity).
  assert (dense todo boardAB) as H4 by (apply denseb_sound; vm_compute; reflexivity).
  destruct (append_keeps_density boardAB idNew "New task" None todo H1 H2 H3 H4)
    as (_ & Hdense & _).
  exact Hdense.
Defined.

(** ** Insertion at an explicit order, continued *)

Lemma hasOrder_shiftedUp c (s : gmap string Task) k j :
  hasOrder c (shiftedUp s c k) j
  ↔ (hasOrder c s j ∧ j < k) ∨ (hasOrder c s (j - 1) ∧ k <= j - 1).
Proof.
  unfold hasOrder, shiftedUp. split.
  - intros (id & t' & Ht' & Hc & Ho). rewrite lookup_fmap in Ht'.
    destruct (s !! id) as [t|] eqn:Ht; [|done]. simpl in Ht'. injection Ht' as <-.
    rewrite columnId_shiftWhere in Hc. unfold shiftWhere, gteOrder in Ho.
    destruct (inColumn c t && _) eqn:E; simpl in Ho; boolean.
    + right. split; [|lia]. exists id, t. split; [done|]. split; [done|lia].
    + congruence.
    + left. split; [|lia]. by exists id, t.
  - intros [[(id & t & Ht & Hc & Ho) Hlt]|[(id & t & Ht & Hc & Ho) Hge]].
    + exists id, t. rewrite lookup_fmap, Ht. simpl. unfold shiftWhere, gteOrder.
      rewrite (proj2 (Z.leb_gt _ _)) by lia. by rewrite andb_false_r.
    + exists id, (incOrder 1 t). rewrite lookup_fmap, Ht. simpl.
      unfold shiftWhere, gteOrder.
      rewrite (proj2 (inColumn_true _ _)) by done.
      rewrite (proj2 (Z.leb_le _ _)) by lia. simpl. split; [done|].
      split; [done|lia].
Qed.

(** ** Shifts over spaced orders, document by document *)

Section Spaced.
Variables (s : gmap string Task) (c : Column) (k : Z).
Hypothesis Hunique : distinctOrders s.
Hypothesis Hspaced : spacedFrom c s k.

(** A board on which some of the documents have made their step and the
    others have not satisfies the index. *)
Lemma partly_shifted_distinct (s' : gmap string Task) :
  (∀ id, s' !! id = s !! id ∨ s' !! id = shiftedUp s c k !! id) →
  distinctOrders s'.
Proof using Hunique Hspaced.
  intros Hpart.
  assert (∀ id t', s' !! id = Some t' →
            ∃ t, s !! id = Some t ∧ columnId t' = columnId t
              ∧ (order t' = order t
                 ∨ (columnId t = c ∧ k <= order t ∧ order t' = order t + 1))) as Hsrc.
  { intros id t' Ht'. destruct (Hpart id) as [E|E]; rewrite E in Ht'.
    - exists t'. auto.
    - unfold shiftedUp in Ht'. rewrite lookup_fmap in Ht'.
      destruct (s !! id) as [t|]; [|done]. simpl in Ht'. injection Ht' as <-.
      exists t. split; [done|]. rewrite columnId_shiftWhere. split; [done|].
      unfold shiftWhere, gteOrder. destruct (inColumn c t && _) eqn:E'; [|by left].
      boolean. right. simpl. auto. }
  intros i j t' u' Hi Hj Hc Ho.
  destruct (Hsrc i t' Hi) as (t & Ht & Hct & Hot).
  destruct (Hsrc j u' Hj) as (u & Hu & Hcu & Hou).
  assert (columnId t = columnId u) as Hcc by congruence.
  destruct Hot as [Hot|(Htc & Htk & Hot)], Hou as [Hou|(Huc & Huk & Hou)].
  - eapply Hunique; eauto. congruence.
  - exfalso. apply (Hspaced (order u) Huk).
    + by exists j, u.
    + exists i, t. split; [done|]. split; [congruence|lia].
  - exfalso. apply (Hspaced (order t) Htk).
    + by exists i, t.
    + exists j, u. split; [done|]. split; [congruence|lia].
  - eapply Hunique; eauto. lia.
Qed.

Lemma updateEach_partly (ids : list string) (s' : gmap string Task) :
  NoDup ids →
  (∀ id, s' !! id = if decide (id ∈ ids) then s !! id else shiftedUp s c k !! id) →
  updateEach (gteOrder c k) 1 ids s' = (shiftedUp s c k, Ok ()).
Proof using Hunique Hspaced.
  revert s'. induction ids as [|id ids IH]; intros s' Hnd Hrel; simpl.
  - unfold mret, M_ret. f_equal. apply map_eq. intros id.
    rewrite (Hrel id). rewrite decide_False; [done|]. apply not_elem_of_nil.
  - apply NoDup_cons in Hnd as [Hfirst Hnd].
    assert (s' !! id = s !! id) as Hid.
    { rewrite (Hrel id). rewrite decide_True; [done|]. left. }
    assert (∀ t0, s !! id = Some t0 → gteOrder c k t0 = false →
              shiftedUp s c k !! id = s !! id) as Hsame.
    { intros t0 Ht0 HP. unfold shiftedUp, shiftWhere.
      rewrite lookup_fmap, Ht0. simpl. by rewrite HP. }
    destruct (s !! id) as [t|] eqn:Ht; rewrite Hid.
    + destruct (gteOrder c k t) eqn:HP.
      * assert (∀ j, (<[id := incOrder 1 t]> s') !! j
                  = if decide (j ∈ ids) then s !! j else shiftedUp s c k !! j) as Hrel'.
        { intros j. rewrite lookup_insert. destruct (decide (id = j)) as [<-|Hne].
          - destruct (decide (id ∈ ids)) as [Hin|Hnin].
            + done.
            + unfold shiftedUp, shiftWhere. rewrite lookup_fmap, Ht. simpl.
              by rewrite HP.
          - rewrite (Hrel j). destruct (decide (j ∈ ids)) as [Hin|Hnin].
            + rewrite decide_True; [done|]. by right.
            + rewrite decide_False; [done|]. intros Hin.
              apply elem_of_cons in Hin as [?|?]; congruence. }
        unfold mbind, M_bind. rewrite commit_accepted; [by apply IH|].
        apply uniqueIndex_distinct, partly_shifted_distinct.
        intros j. rewrite (Hrel' j). destruct (decide (j ∈ ids)); auto.
      * apply IH; [done|]. intros j. rewrite (Hrel j).
        destruct (decide (j ∈ ids)) as [Hin|Hnin].
        -- rewrite decide_True; [done|]. by right.
        -- destruct (decide (j = id)) as [->|Hne].
           ++ rewrite decide_True by left. rewrite Ht. symmetry.
              by apply (Hsame t).
           ++ rewrite decide_False; [done|]. intros Hin.
              apply elem_of_cons in Hin as [?|?]; congruence.
    + apply IH; [done|]. intros j. rewrite (Hrel j).
      destruct (decide (j ∈ ids)) as [Hin|Hnin].
      * rewrite decide_True; [done|]. by right.
      * destruct (decide (j = id)) as [->|Hne].
        -- rewrite decide_True by left. unfold shiftedUp.
           by rewrite lookup_fmap, Ht.
        -- rewrite decide_False; [done|]. intros Hin.
           apply elem_of_cons in Hin as [?|?]; congruence.
Qed.
(** Over spaced orders the shift by +1 is accepted document by document, in
    every sequence that visits once each document it matches, and leaves
    the board the update taken at once leaves. *)
Lemma updateEach_spaced (ids : list string) :
  NoDup ids →
  (∀ id t, s !! id = Some t → gteOrder c k t = true → id ∈ ids) →
  updateMany (gteOrder c k) 1 s = (shiftedUp s c k, Ok ())
  ∧ updateEach (gteOrder c k) 1 ids s = updateMany (gteOrder c k) 1 s.
Proof using Hunique Hspaced.
  intros Hnd Hall.
  assert (updateMany (gteOrder c k) 1 s = (shiftedUp s c k, Ok ())) as Hmany.
  { unfold updateMany. fold (shiftedUp s c k). apply commit_accepted.
    by apply uniqueIndex_distinct, shiftedUp_distinct. }
  split; [exact Hmany|]. rewrite Hmany. apply updateEach_partly; [done|].
  intros id. destruct (decide (id ∈ ids)) as [Hin|Hnin]; [done|].
  unfold shiftedUp. rewrite lookup_fmap. destruct (s !! id) as [t|] eqn:Ht; [|done].
  simpl. f_equal. unfold shiftWhere.
  destruct (gteOrder c k t) eqn:HP; [|done]. exfalso. eauto.
Qed.
End Spaced.

Section ExplicitInsert.
Variables (s : gmap string Task) (newId ti : string) (de : option string).
Variables (c : Column) (k : Z).
Hypothesis Hunique : distinctOrders s.
Hypothesis Hfresh : s !! newId = None.
Hypothesis Htitle : validateTitle (trim ti) = [].
Hypothesis Hk : 1 <= k.

(** The board the handler leaves, in both cases. *)
Lemma createTask_explicit_store :
  (createTask newId (explicitBody ti de c k) s).1
  = <[newId := newTask ti de c k]>
      (if decide (hasOrder c s k) then shiftedUp s c k else s)
  ∧ (createTask newId (explicitBody ti de c k) s).2
    = mkResponse 201 (TaskBody newId (Some (newTask ti de c k))).
Proof using Hunique Hfresh Htitle Hk.
  case_decide as Hocc.
  - by rewrite (createTask_occupied s newId ti de c k).
  - by rewrite (createTask_vacant s newId ti de c k).
Qed.

(** What the insertion does to the order of a task already stored. *)
Lemma createTask_explicit_order id t :
  s !! id = Some t →
  ∃ t', (createTask newId (explicitBody ti de c k) s).1 !! id = Some t'
        ∧ columnId t' = columnId t
        ∧ order t' = if decide (hasOrder c s k ∧ columnId t = c ∧ k <= order t)
                     then order t + 1 else order t.
Proof using Hunique Hfresh Htitle Hk.
  intros Ht. destruct createTask_explicit_store as [-> _].
  rewrite lookup_insert_ne by (intros ->; congruence).
  destruct (decide (hasOrder c s k)) as [Hocc|Hvac].
  - unfold shiftedUp. rewrite lookup_fmap, Ht. simpl. eexists. split; [done|].
    rewrite columnId_shiftWhere. split; [done|].
    unfold shiftWhere, gteOrder. destruct (inColumn c t && _) eqn:E; boolean.
    + by rewrite decide_True.
    + rewrite decide_False; [done|]. intros (? & ? & ?); done.
    + rewrite decide_False; [done|]. intros (? & ? & ?); lia.
  - exists t. split; [done|]. split; [done|].
    rewrite decide_False; [done|]. by intros (? & ? & ?).
Qed.
End ExplicitInsert.

(** X3. In a dense column of N tasks, an insertion at the order of its last
    task or right after it (k = N or k = N+1, k positive) is answered 201
    and leaves the column dense with N+1 tasks, the new task at k: the only
    task the shift can move is the last one, to N+1, which nobody holds. *)
Theorem insert_keeps_density (s : gmap string Task) (newId ti : string)
    (de : option string) (c : Column) (k : Z) :
  distinctOrders s →
  s !! newId = None →
  validateTitle (trim ti) = [] →
  dense c s →
  1 <= k →
  Z.of_nat (columnSize c s) <= k <= Z.of_nat (columnSize c s) + 1 →
  let r := createTask newId (explicitBody ti de c k) s in
  r.2 = mkResponse 201 (TaskBody newId (Some (newTask ti de c k)))
  ∧ r.1 !! newId = Some (newTask ti de c k)
  ∧ columnSize c r.1 = S (columnSize c s)
  ∧ dense c r.1.
Proof.
  intros Hd Hfresh Hti Hdense Hk1 Hk r. subst r.
  destruct (createTask_explicit_store s newId ti de c k Hd Hfresh Hti) as [-> ->];
    [lia|].
  split; [done|]. split; [by rewrite lookup_insert_eq|].
  destruct (decide (hasOrder c s k)) as [Hocc|Hvac].
  - assert (shiftedUp s c k !! newId = None) as Hfresh'
      by (unfold shiftedUp; by rewrite lookup_fmap, Hfresh).
    assert (columnSize c (shiftedUp s c k) = columnSize c s) as Hsz
      by (unfold shiftedUp; apply columnSize_fmap, columnId_shiftWhere).
    split; [by rewrite columnSize_insert_fresh, Hsz|].
    intros j. rewrite hasOrder_insert_fresh by done.
    rewrite columnSize_insert_fresh, Hsz by done.
    rewrite hasOrder_shiftedUp, (Hdense j), (Hdense (j - 1)). simpl.
    apply Hdense in Hocc. split.
    + intros [[[? ?]|[? ?]]|[_ ?]]; lia.
    + intros Hj. destruct (Z.lt_trichotomy j k) as [?|[?|?]].
      * left. left. lia.
      * right. split; [done|lia].
      * left. right. lia.
  - assert (k = Z.of_nat (columnSize c s) + 1) as Hend.
    { destruct (decide (k = Z.of_nat (columnSize c s) + 1)); [done|].
      exfalso. apply Hvac, Hdense. lia. }
    split; [by apply columnSize_insert_fresh|].
    by apply dense_insert_end.
Qed.

(** X3, on a board: a task inserted at 3 into todo = A(1), B(2), C(3). *)
Lemma insert_keeps_density_witness :
  dense todo (createTask idNew (explicitBody "New task" None todo 3) boardABC).1.
Proof.
  assert (distinctOrders boardABC) as H1
    by (apply distinctOrders_decide; vm_compute; reflexivity).
  assert (boardABC !! idNew = None) as H2 by (vm_compute; reflexivity).
  assert (validateTitle (trim "New task") = []) as H3 by (vm_compute; reflexivity).
  assert (dense todo boardABC) as H4 by (apply denseb_sound; vm_compute; reflexivity).
  assert (1 <= 3) as H5 by lia.
  assert (Z.of_nat (columnSize todo boardABC) <= 3
          <= Z.of_nat (columnSize todo boardABC) + 1) as H6
    by (vm_compute; split; discriminate).
  destruct (insert_keeps_density boardABC idNew "New task" None todo 3
              H1 H2 H3 H4 H5 H6) as (_ & _ & _ & Hdense).
  exact Hdense.
Defined.

(** X4. The handler accepts any positive order: in a dense column of N
    tasks an insertion at k > N+1 is answered 201, moves nothing, and leaves
    a column that is no longer dense (nobody holds N+1). *)
Theorem insert_beyond_end_leaves_gap (s : gmap string Task) (newId ti : string)
    (de : option string) (c : Column) (k : Z) :
  distinctOrders s →
  s !! newId = None →
  validateTitle (trim ti) = [] →
  dense c s →
  Z.of_nat (columnSize c s) + 1 < k →
  createTask newId (explicitBody ti de c k) s
    = (<[newId := newTask ti de c k]> s,
       mkResponse 201 (TaskBody newId (Some (newTask ti de c k))))
  ∧ ¬ hasOrder c (<[newId := newTask ti de c k]> s) (Z.of_nat (columnSize c s) + 1)
  ∧ ¬ dense c (<[newId := newTask ti de c k]> s).
Proof.
  intros Hd Hfresh Hti Hdense Hk.
  assert (¬ hasOrder c s k) as Hvac by (intros H; apply Hdense in H; lia).
  assert (¬ hasOrder c (<[newId := newTask ti de c k]> s)
            (Z.of_nat (columnSize c s) + 1)) as Hgap.
  { rewrite hasOrder_insert_fresh by done. intros [H|[_ H]].
    - apply Hdense in H. lia.
    - simpl in H. lia. }
  split; [apply createTask_vacant; (done || lia)|]. split; [done|].
  intros Hdense'. apply Hgap, Hdense'.
  rewrite columnSize_insert_fresh by done. lia.
Qed.

(** X4, on a board: a task inserted at 7 into todo = A(1), B(2). *)
Lemma insert_beyond_end_leaves_gap_witness :
  ¬ dense todo (<[idNew := newTask "New task" None todo 7]> boardAB).
Proof.
  assert (distinctOrders boardAB) as H1
    by (apply distinctOrders_decide; vm_compute; reflexivity).
  assert (boardAB !! idNew = None) as H2 by (vm_compute; reflexivity).
  assert (validateTitle (trim "New task") = []) as H3 by (vm_compute; reflexivity).
  assert (dense todo boardAB) as H4 by (apply denseb_sound; vm_compute; reflexivity).
  assert (Z.of_nat (columnSize todo boardAB) + 1 < 7) as H5 by (vm_compute; reflexivity).
  destruct (insert_beyond_end_leaves_gap boardAB idNew "New task" None todo 7
              H1 H2 H3 H4 H5) as (_ & _ & Hnot).
  exact Hnot.
Defined.



(** ** A creation that fails after the shift *)



(** ** Insert, then delete *)

Lemma incOrder_inverse t : incOrder (-1) (incOrder 1 t) = t.
Proof. destruct t. unfold incOrder, setOrder. simpl. f_equal. lia. Qed.



(** ** Deleting from any column *)



(** ** Moves: failures *)

Definition orderTooSmall : JsError :=
  Error "Failed to move task: Task validation failed: order: Order must be at least 1".

Lemma move_error_message (m : string) :
  String.eqb ("Failed to move task: " ++ m)%string "Task not found" = false.
Proof. reflexivity. Qed.

(** Whatever [moveTaskToColumn] throws has gone through its catch. *)
Lemma moveTaskToColumn_Throw id c n (s s' : gmap string Task) e :
  moveTaskToColumn id c n s = (s', Throw e) →
  ∃ m, e = Error ("Failed to move task: " ++ m)%string.
Proof.
  unfold moveTaskToColumn, tryCatch.
  match goal with |- context [match ?m s with _ => _ end] =>
    destruct (m s) as [s1 [a|e1]] end; [discriminate|].
  unfold throw. intros [= _ <-]. by eexists.
Qed.

(** X9. Every failure of [moveTaskToColumn] reaches the PUT handler as a
    plain [Error] whose message starts with the static's prefix: the handler
    answers it 500, never 404 and never 400, a failed validation included. *)
Theorem move_failures_are_answered_500 (id : string) (c : Column) (n : Z)
    (s s' : gmap string Task) (e : JsError) :
  moveTaskToColumn id c n s = (s', Throw e) →
  errorName e = "Error"
  ∧ isValidationError e = false
  ∧ updateCatch e = updateFailed.
Proof.
  intros H. apply moveTaskToColumn_Throw in H as [m ->].
  split; [done|]. split; [done|].
  unfold updateCatch. simpl errorMessage. by rewrite move_error_message.
Qed.

(** X9, on a board: a move to order 0. *)
Lemma move_failures_are_answered_500_witness :
  updateCatch orderTooSmall = updateFailed.
Proof.
  apply (move_failures_are_answered_500 idB in_progress 0 boardAB boardAB).
  vm_compute. reflexivity.
Defined.

Lemma move_below_one_fails_aux (id : string) (c : Column) (n : Z)
    (s : gmap string Task) :
  n < 1 →
  ∃ s' e, moveTaskToColumn id c n s = (s', Throw e).
Proof.
  intros Hn. destruct (moveTaskToColumn id c n s) as [s' [t'|e]] eqn:E;
    [|by eauto].
  exfalso. revert E.
  unfold moveTaskToColumn, tryCatch, mbind, M_bind, findById.
  destruct (isObjectId id); [|discriminate].
  destruct (s !! id) as [t|]; [|discriminate].
  destruct (moveShifts _ _ c n s) as [s1 [[]|e]]; [|discriminate].
  unfold save, validate, validateOrder. simpl order.
  rewrite (proj2 (Z.ltb_lt n 1)) by done.
  destruct (validateTitle _); discriminate.
Qed.

(** X10. A move to an order below 1 never succeeds, whatever the board: the
    document fails the schema's minimum when it is saved, the static throws,
    and the PUT handler answers 500. *)
Theorem move_below_one_fails (id : string) (c : Column) (n : Z)
    (s : gmap string Task) :
  n < 1 →
  (∃ s' e, moveTaskToColumn id c n s = (s', Throw e))
  ∧ (is_Some (s !! id) → isObjectId id = true →
     (updateTask id (moveBody (columnName c) n) s).2 = updateFailed).
Proof.
  intros Hn. destruct (move_below_one_fails_aux id c n s Hn) as (s' & e & He).
  split; [by eauto|]. intros [t Ht] Hid.
  unfold updateTask, moveBody. simpl ub_columnId. simpl ub_order.
  rewrite Hid, Ht. simpl negb. cbv iota. rewrite parseColumn_columnName.
  rewrite He. simpl. apply moveTaskToColumn_Throw in He as [m ->].
  unfold updateCatch. simpl errorMessage. by rewrite move_error_message.
Qed.

(** X10, on a board: B of todo = A(1), B(2) sent to order 0. *)
Lemma move_below_one_fails_witness :
  ∃ s' e, moveTaskToColumn idB todo 0 boardAB = (s', Throw e).
Proof.
  assert (0 < 1) as H by lia.
  destruct (move_below_one_fails idB todo 0 boardAB H) as (Hthrow & _).
  exact Hthrow.
Defined.

Section LastOfColumn.
Variables (s : gmap string Task) (id : string) (t : Task) (c : Column) (n : Z).
Hypothesis Hid : isObjectId id = true.
Hypothesis Hunique : distinctOrders s.
Hypothesis Ht : s !! id = Some t.
Hypothesis Hlast : ∀ j u, s !! j = Some u → columnId u = columnId t → order u <= order t.
Hypothesis Hc : c ≠ columnId t.

Lemma nothing_after_last :
  shiftWhere (gtOrder (columnId t) (order t)) (-1) <$> s = s.
Proof using Hlast.
  apply map_eq. intros j. rewrite lookup_fmap.
  destruct (s !! j) as [u|] eqn:Hu; [|done]. simpl. f_equal.
  unfold shiftWhere, gtOrder. destruct (inColumn _ u && _) eqn:E; [|done].
  boolean. assert (order u <= order t) by eauto. lia.
Qed.

(** The two shifts of a move of the last task of its column. *)
Lemma moveShifts_last : moveShifts (columnId t) (order t) c n s = (shiftedUp s c n, Ok ()).
Proof using Hunique Hlast Hc.
  unfold moveShifts. rewrite decide_True by congruence.
  unfold mbind, M_bind, updateMany. rewrite nothing_after_last.
  rewrite commit_accepted by (by apply uniqueIndex_distinct).
  fold (shiftedUp s c n). apply commit_accepted.
  by apply uniqueIndex_distinct, shiftedUp_distinct.
Qed.

Lemma shiftedUp_keeps_moved : shiftedUp s c n !! id = Some t.
Proof using Ht Hc.
  unfold shiftedUp. rewrite lookup_fmap, Ht. simpl. f_equal.
  unfold shiftWhere, gteOrder, inColumn.
  by rewrite bool_decide_eq_false_2 by congruence.
Qed.
End LastOfColumn.



(** ** Moves: successes *)



Lemma moveTaskToColumn_Ok_inv id c n (s s1 : gmap string Task) t1 :
  moveTaskToColumn id c n s = (s1, Ok t1) →
  isObjectId id = true
  ∧ validate t1 = []
  ∧ s1 !! id = Some t1
  ∧ columnId t1 = c ∧ order t1 = n
  ∧ ∃ t, s !! id = Some t ∧ t1 = setColumnOrder c n t.
Proof.
  unfold moveTaskToColumn, tryCatch, mbind, M_bind, findById.
  destruct (isObjectId id); [|discriminate].
  destruct (s !! id) as [t|]; [|discriminate].
  destruct (moveShifts _ _ c n s) as [s0 [[]|e]]; [|discriminate].
  unfold save. destruct (validate (setColumnOrder c n t)) eqn:Hv; [|discriminate].
  simpl. unfold mbind, M_bind.
  destruct (commit _ s0) as [s2 [[]|e]] eqn:E; [|discriminate].
  apply commit_Ok in E. subst s2. unfold mret, M_ret. intros [= <- <-].
  split; [done|]. split; [done|]. split; [by rewrite lookup_insert_eq|].
  split; [done|]. split; [done|]. by exists t.
Qed.

(** X13. A move that succeeded can be repeated: the second call with the
    same arguments shifts nothing, succeeds, and returns the same task on an
    unchanged board. *)
Theorem repeated_move_is_a_noop (id : string) (c : Column) (n : Z)
    (s s1 : gmap string Task) (t1 : Task) :
  distinctOrders s →
  moveTaskToColumn id c n s = (s1, Ok t1) →
  moveTaskToColumn id c n s1 = (s1, Ok t1).
Proof.
  intros Hd Hm.
  assert (distinctOrders s1) as Hd1.
  { apply uniqueIndex_distinct.
    pose proof (preserves_moveTaskToColumn id c n s) as Hp. rewrite Hm in Hp.
    by apply Hp, uniqueIndex_distinct. }
  apply moveTaskToColumn_Ok_inv in Hm as (Hid & Hv & Ht1 & Hc & Ho & _).
  subst c n. by apply move_to_own_order.
Qed.

(** X13, on a board: B moved to in-progress at 1, twice. *)
Lemma repeated_move_is_a_noop_witness :
  moveTaskToColumn idB in_progress 1 boardAfterMove
  = (boardAfterMove, Ok (card "Task B" in_progress 1)).
Proof.
  apply (repeated_move_is_a_noop idB in_progress 1 boardTwoColumns).
  - apply distinctOrders_decide. vm_compute. reflexivity.
  - vm_compute. reflexivity.
Defined.

(** X14. A PUT that names the column and the order the task already has is
    answered 200 with the task, and the board is unchanged. *)
Theorem put_to_current_position (s : gmap string Task) (id : string) (t : Task) :
  isObjectId id = true →
  distinctOrders s →
  s !! id = Some t →
  validate t = [] →
  updateTask id (moveBody (columnName (columnId t)) (order t)) s
  = (s, mkResponse 200 (TaskBody id (Some t))).
Proof.
  intros Hid Hd Ht Hv. unfold updateTask, moveBody.
  simpl ub_columnId. simpl ub_order. rewrite Hid, Ht. simpl negb. cbv iota.
  rewrite parseColumn_columnName. by rewrite move_to_own_order.
Qed.

(** X14, on a board: B of todo = A(1), B(2), C(3) sent to todo at 2. *)
Lemma put_to_current_position_witness :
  updateTask idB (moveBody "todo" 2) boardABC
  = (boardABC, mkResponse 200 (TaskBody idB (Some (card "Task B" todo 2)))).
Proof.
  apply (put_to_current_position boardABC idB (card "Task B" todo 2)).
  - vm_compute. reflexivity.
  - apply distinctOrders_decide. vm_compute. reflexivity.
  - vm_compute. reflexivity.
  - vm_compute. reflexivity.
Defined.

(** ** Moves and bulk reorders in dense columns *)

(** X15. In a dense column, a PUT that sends a task to another position
    1, ..., N of its column is answered 500 and changes nothing: the shift
    is rejected by the unique index. *)
Theorem put_within_dense_column_fails (s : gmap string Task) (id : string)
    (t : Task) (n : Z) :
  isObjectId id = true →
  s !! id = Some t →
  dense (columnId t) s →
  1 <= n <= Z.of_nat (columnSize (columnId t) s) →
  n ≠ order t →
  moveTaskToColumn id (columnId t) n s = (s, Throw moveRejected)
  ∧ updateTask id (moveBody (columnName (columnId t)) n) s = (s, updateFailed).
Proof.
  intros Hid Ht Hdense Hn Hne.
  assert (moveTaskToColumn id (columnId t) n s = (s, Throw moveRejected)) as Hm
    by (by apply (dense_move_within_rejected s id t n)).
  split; [exact Hm|].
  unfold updateTask, moveBody. simpl ub_columnId. simpl ub_order.
  rewrite Hid, Ht. simpl negb. cbv iota. rewrite parseColumn_columnName.
  by rewrite Hm.
Qed.

(** X15, on a board: A of todo = A(1), B(2), C(3) sent to position 3. *)
Lemma put_within_dense_column_fails_witness :
  updateTask idA (moveBody "todo" 3) boardABC = (boardABC, updateFailed).
Proof.
  destruct (put_within_dense_column_fails boardABC idA (card "Task A" todo 1) 3)
    as (_ & H).
  - vm_compute. reflexivity.
  - vm_compute. reflexivity.
  - apply denseb_sound. vm_compute. reflexivity.
  - vm_compute. split; discriminate.
  - simpl. lia.
  - exact H.
Defined.

(** X16. In a dense column, a PUT that sends a task other than the last one
    to another column is answered 500 and changes nothing, whatever the
    target order. *)
Theorem put_across_from_dense_column_fails (s : gmap string Task) (id : string)
    (t : Task) (c : Column) (n : Z) :
  isObjectId id = true →
  s !! id = Some t →
  dense (columnId t) s →
  order t < Z.of_nat (columnSize (columnId t) s) →
  c ≠ columnId t →
  moveTaskToColumn id c n s = (s, Throw moveRejected)
  ∧ updateTask id (moveBody (columnName c) n) s = (s, updateFailed).
Proof.
  intros Hid Ht Hdense Hlast Hc.
  assert (moveTaskToColumn id c n s = (s, Throw moveRejected)) as Hm
    by (by apply (dense_move_across_rejected s id t c n)).
  split; [exact Hm|].
  unfold updateTask, moveBody. simpl ub_columnId. simpl ub_order.
  rewrite Hid, Ht. simpl negb. cbv iota. rewrite parseColumn_columnName.
  by rewrite Hm.
Qed.

(** X16, on a board: B of todo = A(1), B(2), C(3) sent to completed. *)
Lemma put_across_from_dense_column_fails_witness :
  updateTask idB (moveBody "completed" 1) boardABC = (boardABC, updateFailed).
Proof.
  destruct (put_across_from_dense_column_fails boardABC idB (card "Task B" todo 2)
              completed 1) as (_ & H).
  - vm_compute. reflexivity.
  - vm_compute. reflexivity.
  - apply denseb_sound. vm_compute. reflexivity.
  - vm_compute. reflexivity.
  - discriminate.
  - exact H.
Defined.

(** X17. In a dense column, a bulk reorder whose entries carry well-formed
    identifiers and orders in 1, ..., N, and which changes the order of at
    least one task of the column, is answered 500 and changes nothing. *)
Theorem bulk_reorder_of_dense_column_fails (s : gmap string Task) (c : Column)
    (l : list (string * Z)) :
  distinctOrders s →
  dense c s →
  Forall (fun e => isObjectId e.1 = true
                   ∧ 1 <= e.2 <= Z.of_nat (columnSize c s)) l →
  Exists (fun e => ∃ t, s !! e.1 = Some t ∧ columnId t = c ∧ order t ≠ e.2) l →
  reorderTasks c l s = (s, Throw reorderRejected)
  ∧ reorder (Some (columnName c)) (Some l) s
    = (s, mkResponse 500 (ErrorBody "Failed to reorder tasks")).
Proof.
  intros Hd Hdense Hall Hex.
  assert (reorderTasks c l s = (s, Throw reorderRejected)) as Hr
    by (by apply dense_reorder_rejected).
  split; [exact Hr|].
  unfold reorder. rewrite truthy_columnName. simpl negb. cbv iota.
  simpl default. rewrite parseColumn_columnName.
  assert (forallb wellFormedEntry l = true) as ->.
  { apply forallb_forall. intros e He. apply list_elem_of_In in He.
    rewrite Forall_forall in Hall. destruct (Hall e He) as [Hid Ho].
    unfold wellFormedEntry. rewrite isObjectId_nonempty by done.
    by rewrite (proj2 (Z.eqb_neq e.2 0)) by lia. }
  simpl negb. cbv iota. by rewrite Hr.
Qed.

(** X17, on a board: B and C of todo = A(1), B(2), C(3) exchanged. *)
Lemma bulk_reorder_of_dense_column_fails_witness :
  reorder (Some "todo") (Some [(idA, 1); (idB, 3); (idC, 2)]) boardABC
  = (boardABC, mkResponse 500 (ErrorBody "Failed to reorder tasks")).
Proof.
  destruct (bulk_reorder_of_dense_column_fails boardABC todo
              [(idA, 1); (idB, 3); (idC, 2)]) as (_ & H).
  - apply distinctOrders_decide. vm_compute. reflexivity.
  - apply denseb_sound. vm_compute. reflexivity.
  - repeat constructor; vm_compute; (reflexivity || discriminate).
  - apply Exists_cons_tl, Exists_cons_hd.
    exists (card "Task B" todo 2). vm_compute. repeat split; discriminate.
  - exact H.
Defined.

(** ** What an accepted move does, task by task *)

(** The change a move of [t] to column [c], order [n], brings to the order
    of another task [u]. *)
Definition moveDelta (t : Task) (c : Column) (n : Z) (u : Task) : Z :=
  if decide (c ≠ columnId t) then
    if decide (columnId u = columnId t ∧ order t < order u) then -1
    else if decide (columnId u = c ∧ n <= order u) then 1
    else 0
  else
    if decide (columnId u = c ∧ n <= order u < order t) then 1
    else if decide (columnId u = c ∧ order t < order u <= n) then -1
    else 0.

Lemma order_shiftWhere P d u :
  order (shiftWhere P d u) = order u + (if P u then d else 0).
Proof. unfold shiftWhere. destruct (P u); simpl; lia. Qed.

Lemma title_shiftWhere P d u :
  title (shiftWhere P d u) = title u ∧ description (shiftWhere P d u) = description u.
Proof. unfold shiftWhere. by destruct (P u). Qed.



(** ** Bulk reorder: composition and frame *)

Lemma reorderLoop_app c (l1 l2 : list (string * Z)) (s : gmap string Task) :
  reorderLoop c (l1 ++ l2) s
  = match reorderLoop c l1 s with
    | (s1, Ok _) => reorderLoop c l2 s1
    | (s1, Throw e) => (s1, Throw e)
    end.
Proof.
  revert s. induction l1 as [|u l1 IH]; intros s; simpl; [done|].
  unfold mbind, M_bind. destruct (updateOne u.1 c u.2 s) as [s0 [[]|e]]; [|done].
  apply IH.
Qed.

(** X19. A bulk reorder is the sequence of its entries: a batch [l1 ++ l2]
    behaves as the batch [l1] followed, when it succeeds, by the batch [l2]
    on the board it leaves. A batch that fails midway therefore keeps the
    updates of the entries before the failing one. *)
Theorem bulk_reorder_is_sequential (c : Column) (l1 l2 : list (string * Z))
    (s : gmap string Task) :
  reorderTasks c (l1 ++ l2) s
  = match reorderTasks c l1 s with
    | (s1, Ok _) => reorderTasks c l2 s1
    | (s1, Throw e) => (s1, Throw e)
    end.
Proof.
  unfold reorderTasks, tryCatch. rewrite reorderLoop_app.
  destruct (reorderLoop c l1 s) as [s1 [[]|e]]; reflexivity.
Qed.

(** What a computation may do to the documents: none is created or lost,
    titles, descriptions and columns stay, and outside column [c] nothing
    changes at all. *)
Definition reordersOnly (c : Column) (s s' : gmap string Task) : Prop :=
  ∀ id, match s !! id, s' !! id with
        | Some t, Some t' =>
            title t' = title t ∧ description t' = description t
            ∧ columnId t' = columnId t ∧ (columnId t ≠ c → t' = t)
        | None, None => True
        | _, _ => False
        end.

Lemma reordersOnly_refl c s : reordersOnly c s s.
Proof. intros id. by destruct (s !! id). Qed.

Lemma reordersOnly_trans c s1 s2 s3 :
  reordersOnly c s1 s2 → reordersOnly c s2 s3 → reordersOnly c s1 s3.
Proof.
  intros H12 H23 id. specialize (H12 id). specialize (H23 id).
  destruct (s1 !! id) as [t1|], (s2 !! id) as [t2|], (s3 !! id) as [t3|];
    try done.
  destruct H12 as (? & ? & Hc & Hsame), H23 as (? & ? & Hc' & Hsame').
  repeat split; try congruence.
  intros Hne. rewrite Hsame', Hsame; [done|done|congruence].
Qed.

Lemma updateOne_reordersOnly c id n s : reordersOnly c s (updateOne id c n s).1.
Proof.
  unfold updateOne. destruct (isObjectId id); [|apply reordersOnly_refl].
  destruct (s !! id) as [t|] eqn:Ht; [|apply reordersOnly_refl].
  case_decide as Hc; [|apply reordersOnly_refl].
  unfold commit. case_decide; [|apply reordersOnly_refl]. simpl.
  intros j. rewrite lookup_insert. case_decide as E.
  - subst j. rewrite Ht. simpl. repeat split; (done || (intros; congruence)).
  - by destruct (s !! j).
Qed.

Lemma reorderLoop_reordersOnly c l s : reordersOnly c s (reorderLoop c l s).1.
Proof.
  revert s. induction l as [|u l IH]; intros s; simpl; [apply reordersOnly_refl|].
  unfold mbind, M_bind.
  pose proof (updateOne_reordersOnly c u.1 u.2 s) as H1.
  destruct (updateOne u.1 c u.2 s) as [s1 [[]|e]]; simpl in *; [|done].
  eapply reordersOnly_trans; [exact H1|apply IH].
Qed.

Lemma reordersOnly_columnSize c s s' c' :
  reordersOnly c s s' → columnSize c' s' = columnSize c' s.
Proof.
  intros H. unfold columnSize, findColumn. rewrite !length_map_to_list.
  rewrite <- !size_dom. f_equal. apply set_eq. intros id.
  rewrite !elem_of_dom. specialize (H id). split.
  - intros [t' Ht']. apply map_lookup_filter_Some in Ht' as [Ht' Hc].
    rewrite Ht' in H. destruct (s !! id) as [t|] eqn:Ht; [|done].
    exists t. apply map_lookup_filter_Some. split; [done|].
    simpl in *. destruct H as (_ & _ & Hcol & _). congruence.
  - intros [t Ht]. apply map_lookup_filter_Some in Ht as [Ht Hc].
    rewrite Ht in H. destruct (s' !! id) as [t'|] eqn:Ht'; [|done].
    exists t'. apply map_lookup_filter_Some. split; [done|].
    simpl in *. destruct H as (_ & _ & Hcol & _). congruence.
Qed.

Lemma bulk_reorder_frame c l (s : gmap string Task) c' :
  columnSize c' (reorderTasks c l s).1 = columnSize c' s.
Proof.
  apply (reordersOnly_columnSize c). unfold reorderTasks, tryCatch.
  pose proof (reorderLoop_reordersOnly c l s) as H.
  by destruct (reorderLoop c l s) as [s1 [[]|e]].
Qed.

(** X20. Whatever its entries and whether it succeeds or fails, a bulk
    reorder of column C creates and deletes no task, changes no title,
    description or column, and leaves the tasks of the other columns exactly
    as they were; the column sizes are unchanged. The same holds of the
    reorder handler. *)
Theorem bulk_reorder_touches_orders_only (c : Column) (l : list (string * Z))
    (s : gmap string Task) :
  reordersOnly c s (reorderTasks c l s).1
  ∧ (∀ id, is_Some ((reorderTasks c l s).1 !! id) ↔ is_Some (s !! id))
  ∧ (∀ id t, s !! id = Some t → columnId t ≠ c →
       (reorderTasks c l s).1 !! id = Some t)
  ∧ (∀ c', columnSize c' (reorderTasks c l s).1 = columnSize c' s)
  ∧ reordersOnly c s (reorder (Some (columnName c)) (Some l) s).1.
Proof.
  assert (reordersOnly c s (reorderTasks c l s).1) as H.
  { unfold reorderTasks, tryCatch.
    pose proof (reorderLoop_reordersOnly c l s) as H.
    by destruct (reorderLoop c l s) as [s1 [[]|e]]. }
  split; [exact H|]. split; [|split; [|split]].
  - intros id. specialize (H id).
    destruct (s !! id), ((reorderTasks c l s).1 !! id); try done;
      split; intros [? ?]; by eauto.
  - intros id t Ht Hc. specialize (H id). rewrite Ht in H.
    destruct ((reorderTasks c l s).1 !! id) as [t'|]; [|done].
    destruct H as (_ & _ & _ & Hsame). by rewrite Hsame.
  - intros c'. by eapply reordersOnly_columnSize.
  - unfold reorder. rewrite truthy_columnName. simpl negb. cbv iota.
    simpl default. rewrite parseColumn_columnName.
    destruct (negb _); [apply reordersOnly_refl|].
    by destruct (reorderTasks c l s) as [s1 [[]|e]].
Qed.

(** ** Moves: what is never touched *)

(** From [s] to [s'] no task is created or lost, no title or description
    changes, and no task but [id] changes column. *)
Definition repositionsOnly (id : string) (s s' : gmap string Task) : Prop :=
  ∀ j, match s !! j, s' !! j with
       | Some u, Some u' =>
           title u' = title u ∧ description u' = description u
           ∧ (j ≠ id → columnId u' = columnId u)
       | None, None => True
       | _, _ => False
       end.

Lemma repositionsOnly_refl id s : repositionsOnly id s s.
Proof. intros j. by destruct (s !! j). Qed.

Lemma repositionsOnly_trans id s1 s2 s3 :
  repositionsOnly id s1 s2 → repositionsOnly id s2 s3 → repositionsOnly id s1 s3.
Proof.
  intros H12 H23 j. specialize (H12 j). specialize (H23 j).
  destruct (s1 !! j) as [t1|], (s2 !! j) as [t2|], (s3 !! j) as [t3|]; try done.
  destruct H12 as (? & ? & Hc), H23 as (? & ? & Hc').
  repeat split; try congruence. intros Hne. rewrite Hc', Hc; done.
Qed.

Lemma updateMany_repositionsOnly id P d s :
  repositionsOnly id s (updateMany P d s).1.
Proof.
  unfold updateMany, commit. case_decide; [|apply repositionsOnly_refl]. simpl.
  intros j. rewrite lookup_fmap. destruct (s !! j) as [u|]; simpl; [|done].
  destruct (title_shiftWhere P d u) as [-> ->]. by rewrite columnId_shiftWhere.
Qed.

Lemma moveShifts_repositionsOnly id c o c' n s :
  repositionsOnly id s (moveShifts c o c' n s).1.
Proof.
  unfold moveShifts. case_decide.
  - unfold mbind, M_bind.
    pose proof (updateMany_repositionsOnly id (gtOrder c o) (-1) s) as H1.
    destruct (updateMany (gtOrder c o) (-1) s) as [s1 [[]|e]]; simpl in *; [|done].
    eapply repositionsOnly_trans; [exact H1|apply updateMany_repositionsOnly].
  - destruct (Z.ltb n o); [apply updateMany_repositionsOnly|].
    destruct (Z.ltb o n); [apply updateMany_repositionsOnly|].
    apply repositionsOnly_refl.
Qed.


(** ** PUT without a position, and the 404 answers *)

Lemma findByIdAndUpdate_keys id ti de (s : gmap string Task) j :
  indexKey <$> ((findByIdAndUpdate id ti de s).1 !! j) = indexKey <$> (s !! j).
Proof.
  unfold findByIdAndUpdate. destruct (s !! id) as [t|] eqn:Ht; [|done].
  destruct (from_option _ _ _); [|done]. simpl.
  rewrite lookup_insert. case_decide; [|done]. subst. by rewrite Ht.
Qed.

(** X22. A PUT moves a task only when its body carries both a column and an
    order: with either one missing the other is ignored, no task changes
    column or order, and, when the body carries neither title nor
    description, the answer is 200 with the task and the board is
    unchanged. *)
Theorem put_without_position_moves_nothing (s : gmap string Task) (id : string)
    (b : UpdateBody) (t : Task) :
  ub_columnId b = None ∨ ub_order b = None →
  (∀ j, indexKey <$> ((updateTask id b s).1 !! j) = indexKey <$> (s !! j))
  ∧ (isObjectId id = true → s !! id = Some t →
     ub_title b = None → ub_description b = None →
     updateTask id b s = (s, mkResponse 200 (TaskBody id (Some t)))).
Proof.
  intros Hb.
  assert (updateTask id b s
          = if negb (isObjectId id)
            then (s, mkResponse 400 (ErrorBody "Invalid task ID format"))
            else match s !! id with
                 | None => (s, notFound)
                 | Some _ =>
                     match findByIdAndUpdate id (ub_title b) (ub_description b) s with
                     | (s', Ok updatedTask) =>
                         (s', mkResponse 200 (TaskBody id updatedTask))
                     | (s', Throw error) => (s', updateCatch error)
                     end
                 end) as Hu.
  { unfold updateTask. destruct (negb _); [done|]. destruct (s !! id); [|done].
    destruct Hb as [-> | ->]; [done|]. by destruct (ub_columnId b). }
  split.
  - intros j. rewrite Hu. destruct (negb _); [done|].
    destruct (s !! id) eqn:Ht; [|done].
    pose proof (findByIdAndUpdate_keys id (ub_title b) (ub_description b) s j) as Hk.
    by destruct (findByIdAndUpdate _ _ _ s) as [s1 [a|e]].
  - intros Hid Ht Hti Hde. rewrite Hu, Hid, Ht, Hti, Hde. simpl.
    unfold findByIdAndUpdate. rewrite Ht. simpl.
    assert (mkTask (title t) (description t) (columnId t) (order t) = t) as ->
      by (by destruct t).
    by rewrite insert_id.
Qed.

(** X22, on a board: a PUT for A that names the column completed and no
    order. *)
Lemma put_without_position_moves_nothing_witness :
  updateTask idA (mkUpdateBody (Some "completed") None None None) boardAB
  = (boardAB, mkResponse 200 (TaskBody idA (Some (card "Task A" todo 1)))).
Proof.
  destruct (put_without_position_moves_nothing boardAB idA
              (mkUpdateBody (Some "completed") None None None)
              (card "Task A" todo 1)) as (_ & H).
  - right. reflexivity.
  - apply H; vm_compute; reflexivity.
Defined.

Lemma validation_error_message errs :
  String.eqb (errorMessage (ValidationError errs)) "Task not found" = false.
Proof. reflexivity. Qed.

Lemma findByIdAndUpdate_Throw id ti de (s s' : gmap string Task) e :
  findByIdAndUpdate id ti de s = (s', Throw e) → status (updateCatch e) = 400.
Proof.
  unfold findByIdAndUpdate. destruct (s !! id); [|discriminate].
  destruct (from_option _ _ _); [discriminate|]. intros [= _ <-].
  unfold updateCatch. by rewrite validation_error_message.
Qed.

(** X23. For an identifier in the stored spelling, PUT and DELETE answer
    404 exactly when no task is stored under it, and then write nothing: no
    failure of the engine behind them is ever answered 404. *)
Theorem not_found_iff_missing (s : gmap string Task) (id : string) (b : UpdateBody) :
  isStoredSpelling id = true →
  (status (updateTask id b s).2 = 404 ↔ s !! id = None)
  ∧ (status (deleteTask id s).2 = 404 ↔ s !! id = None)
  ∧ (s !! id = None →
     updateTask id b s = (s, notFound) ∧ deleteTask id s = (s, notFound)).
Proof.
  intros Hid. apply isStoredSpelling_isObjectId in Hid. split; [|split].
  - unfold updateTask. rewrite Hid. simpl negb. cbv iota.
    destruct (s !! id) as [t|]; [|done]. split; [|done].
    destruct (ub_columnId b) as [cn|], (ub_order b) as [n|];
      try (destruct (findByIdAndUpdate _ _ _ s) as [s1 [a|e]] eqn:E;
           [discriminate|]; apply findByIdAndUpdate_Throw in E; simpl;
           rewrite E; discriminate).
    destruct (parseColumn cn) as [c|]; [|discriminate].
    destruct (moveTaskToColumn id c n s) as [s1 [t1|e]] eqn:E; [discriminate|].
    apply moveTaskToColumn_Throw in E as [m ->].
    unfold updateCatch. simpl errorMessage. rewrite move_error_message.
    discriminate.
  - unfold deleteTask. rewrite Hid. simpl negb. cbv iota.
    destruct (s !! id) as [t|]; [|done]. split; [|done].
    match goal with |- context [(?m ≫= ?f) s] =>
      destruct ((m ≫= f) s) as [s1 [[]|e]] end; discriminate.
  - intros Hnone. unfold updateTask, deleteTask. by rewrite Hid, Hnone.
Qed.

(** X23, on a board: a PUT and a DELETE for a task that is not stored. *)
Lemma not_found_iff_missing_witness :
  updateTask idNew (moveBody "todo" 1) boardAB = (boardAB, notFound)
  ∧ deleteTask idNew boardAB = (boardAB, notFound).
Proof.
  destruct (not_found_iff_missing boardAB idNew (moveBody "todo" 1))
    as (_ & _ & H); [vm_compute; reflexivity|].
  apply H. vm_compute. reflexivity.
Defined.

(** ** GET /api/tasks *)

(** The place of a column among the values of [columnId], which the sort
    [{ columnId: 1, order: 1 }] compares as strings. *)
Definition columnRank (c : Column) : Z :=
  match c with completed => 0 | in_progress => 1 | todo => 2 end.

(** [.sort({ columnId: 1, order: 1 })] *)
Definition listLe (p q : string * Task) : Prop :=
  columnRank (columnId p.2) < columnRank (columnId q.2)
  ∨ (columnId p.2 = columnId q.2 ∧ order p.2 <= order q.2).

#[global] Instance listLe_dec p q : Decision (listLe p q).
Proof. unfold listLe. apply _. Defined.

(** The data of a successful answer: [{ tasks, totalTasks }]. *)
Record Listing : Type := mkListing {
  listedTasks : list (string * Task);
  totalTasks : nat
}.

(** The handler reads and never writes: it maps the collection to its
    answer. [totalTasks] is [countDocuments(query)]. *)
Definition getTasks (columnId : option string) (s : gmap string Task)
    : Response + Listing :=
  if truthyString columnId then
    match parseColumn (default "" columnId) with
    | None => inl invalidColumn
    | Some c =>
        inr (mkListing (merge_sort listLe (findColumn c s))
                       (List.length (findColumn c s)))
    end
  else
    inr (mkListing (merge_sort listLe (map_to_list s))
                   (List.length (map_to_list s))).

Lemma columnRank_string_order c1 c2 :
  columnRank c1 < columnRank c2 ↔ String.ltb (columnName c1) (columnName c2) = true.
Proof. destruct c1, c2; vm_compute; split; (done || discriminate). Qed.

Lemma columnRank_inj c1 c2 : columnRank c1 = columnRank c2 → c1 = c2.
Proof. destruct c1, c2; simpl; (done || lia). Qed.

#[global] Instance listLe_total : Total listLe.
Proof.
  intros p q. unfold listLe.
  destruct (Z.lt_trichotomy (columnRank (columnId p.2)) (columnRank (columnId q.2)))
    as [?|[E|?]]; [by left; left| |by right; left].
  apply columnRank_inj in E.
  destruct (Z.le_ge_cases (order p.2) (order q.2)).
  - left. by right.
  - right. right. split; [done|lia].
Qed.

#[global] Instance listLe_trans : Transitive listLe.
Proof.
  intros p q r [H1|[E1 H1]] [H2|[E2 H2]]; unfold listLe.
  - left. lia.
  - left. by rewrite <- E2.
  - left. by rewrite E1.
  - right. split; [congruence|lia].
Qed.

#[global] Instance orderLe_total : Total orderLe.
Proof. intros p q. unfold orderLe. lia. Qed.

#[global] Instance orderLe_trans : Transitive orderLe.
Proof. intros p q r. unfold orderLe. lia. Qed.

Lemma elem_of_findColumn c (s : gmap string Task) id t :
  (id, t) ∈ findColumn c s ↔ s !! id = Some t ∧ columnId t = c.
Proof.
  unfold findColumn. rewrite elem_of_map_to_list. apply map_lookup_filter_Some.
Qed.

Lemma sorted_within_column c (l : list (string * Task)) :
  StronglySorted listLe l → Forall (fun p => columnId p.2 = c) l →
  StronglySorted orderLe l.
Proof.
  induction 1 as [|p l Hs IH Hle]; intros Hall; [constructor|].
  apply Forall_cons in Hall as [Hcp Hall].
  constructor; [by apply IH|].
  rewrite Forall_forall in Hle, Hall. apply Forall_forall. intros q Hq.
  destruct (Hle q Hq) as [Hlt|[_ ?]]; [|done].
  rewrite Hcp, (Hall q Hq) in Hlt. lia.
Qed.

(** X24. The listing reads without writing. With a valid column it returns
    exactly the tasks of that column, each once, by increasing order, and
    [totalTasks] is their number; without a column (or with an empty one)
    it returns every task once, grouped by column in the string order of
    the column names and by increasing order inside a column; an unknown
    column name is answered 400. *)
Theorem listing_is_sorted_and_complete (s : gmap string Task) :
  (∀ c, ∃ l, getTasks (Some (columnName c)) s = inr (mkListing l (List.length l))
        ∧ l ≡ₚ findColumn c s
        ∧ (∀ id t, (id, t) ∈ l ↔ s !! id = Some t ∧ columnId t = c)
        ∧ NoDup l.*1
        ∧ StronglySorted orderLe l
        ∧ List.length l = columnSize c s)
  ∧ (∀ o, truthyString o = false →
       ∃ l, getTasks o s = inr (mkListing l (List.length l))
        ∧ l ≡ₚ map_to_list s
        ∧ (∀ id t, (id, t) ∈ l ↔ s !! id = Some t)
        ∧ NoDup l.*1
        ∧ StronglySorted listLe l
        ∧ List.length l = size s)
  ∧ (∀ name, truthyString (Some name) = true → parseColumn name = None →
       getTasks (Some name) s = inl invalidColumn).
Proof.
  split; [|split].
  - intros c. exists (merge_sort listLe (findColumn c s)).
    pose proof (merge_sort_Permutation listLe (findColumn c s)) as Hp.
    split; [|split; [|split; [|split; [|split]]]].
    + unfold getTasks. rewrite truthy_columnName. simpl default.
      rewrite parseColumn_columnName. do 2 f_equal.
      symmetry. apply Permutation_length, Hp.
    + done.
    + intros id t. rewrite Hp. apply elem_of_findColumn.
    + rewrite Hp. unfold findColumn. apply NoDup_fst_map_to_list.
    + apply (sorted_within_column c); [apply StronglySorted_merge_sort; apply _|].
      apply Forall_forall. intros [id t] Hin. rewrite Hp in Hin.
      by apply elem_of_findColumn in Hin as [_ ?].
    + by rewrite Hp.
  - intros o Ho. exists (merge_sort listLe (map_to_list s)).
    pose proof (merge_sort_Permutation listLe (map_to_list s)) as Hp.
    split; [|split; [|split; [|split; [|split]]]].
    + unfold getTasks. rewrite Ho. do 2 f_equal.
      symmetry. apply Permutation_length, Hp.
    + done.
    + intros id t. rewrite Hp. apply elem_of_map_to_list.
    + rewrite Hp. apply NoDup_fst_map_to_list.
    + apply StronglySorted_merge_sort; apply _.
    + by rewrite Hp, length_map_to_list.
  - intros name Ht Hp. unfold getTasks. rewrite Ht. simpl default. by rewrite Hp.
Qed.

(** X25. When the reorder handler answers 200, the static has succeeded and
    the answer lists exactly the tasks of the column on the board it left,
    each once, by increasing order. *)
Theorem reorder_answer_is_the_sorted_column (c : Column) (l : list (string * Z))
    (s s' : gmap string Task) (r : Response) :
  reorder (Some (columnName c)) (Some l) s = (s', r) →
  status r = 200 →
  reorderTasks c l s = (s', Ok ())
  ∧ ∃ ts, r = mkResponse 200 (TasksBody ts)
      ∧ ts ≡ₚ findColumn c s'
      ∧ (∀ id t, (id, t) ∈ ts ↔ s' !! id = Some t ∧ columnId t = c)
      ∧ StronglySorted orderLe ts
      ∧ List.length ts = columnSize c s.
Proof.
  unfold reorder. rewrite truthy_columnName. simpl negb. cbv iota.
  simpl default. rewrite parseColumn_columnName.
  destruct (negb _); [intros [= <- <-]; discriminate|].
  pose proof (bulk_reorder_frame c l s) as Hsize.
  destruct (reorderTasks c l s) as [s1 [[]|e]]; intros [= <- <-]; [|discriminate].
  intros _. split; [done|].
  exists (merge_sort orderLe (findColumn c s1)).
  pose proof (merge_sort_Permutation orderLe (findColumn c s1)) as Hp.
  split; [done|]. split; [done|]. split; [|split].
  - intros id t. rewrite Hp. apply elem_of_findColumn.
  - apply StronglySorted_merge_sort; apply _.
  - rewrite Hp. simpl in Hsize. apply Hsize.
Qed.

(** X25, on a board: the entries restate the orders of todo = A(1), B(2). *)
Lemma reorder_answer_is_the_sorted_column_witness :
  ∃ ts, (reorder (Some "todo") (Some [(idA, 1); (idB, 2)]) boardAB).2
        = mkResponse 200 (TasksBody ts)
      ∧ StronglySorted orderLe ts.
Proof.
  destruct (reorder_answer_is_the_sorted_column todo [(idA, 1); (idB, 2)] boardAB
              boardAB
              (mkResponse 200
                 (TasksBody [(idA, card "Task A" todo 1); (idB, card "Task B" todo 2)])))
    as (_ & ts & Hr & _ & _ & Hs & _).
  - vm_compute. reflexivity.
  - reflexivity.
  - exists ts. split; [|exact Hs].
    rewrite <- Hr. vm_compute. reflexivity.
Defined.

(** ** Creations the schema rejects *)




